(** * Verification of generate_token.py (GA Ticketing System JWT fixture generator)

    Shallow embedding of [src/generate_token.py] together with the parts of
    its runtime that the script relies on: [datetime], [uuid.uuid4], PyJWT's
    [jwt.encode] (HS256 signing over base64url segments of compact JSON),
    [json.dump] with [indent=2], the file system and standard output. *)

From Stdlib Require Import String Ascii Strings.Byte ZArith List Lia Bool.
From Stdlib Require Import DecimalString DecimalN.
Import ListNotations.
Open Scope Z_scope.
Set Warnings "-register-all".

(** the double-quote character, as a one-character string *)
Definition dq : string := String "034"%char EmptyString.

(* ------------------------------------------------------------------ *)
(** ** Python results: a value or a raised exception *)

Inductive exc :=
| KeyError (key : string)
| OverflowError (msg : string)
| TypeError (msg : string)
| ValueError (msg : string)
| NotImplementedError (msg : string)
| ModuleNotFoundError (msg : string)
| SystemExit (code : Z).

Inductive res (A : Type) :=
| Ok (a : A)
| Err (e : exc).
Arguments Ok {A} a.
Arguments Err {A} e.

Definition res_bind {A B} (r : res A) (k : A -> res B) : res B :=
  match r with Ok a => k a | Err e => Err e end.

Notation "'let!' x := r 'in' k" := (res_bind r (fun x => k))
  (at level 200, x name, r at level 100, k at level 200).

(* ------------------------------------------------------------------ *)
(** ** hashlib.sha256 and hmac (used by PyJWT's HS256 algorithm)

    Bytes are handled as integers in [0, 256) inside the hash and as
    [list byte] at its interface; 32-bit words are [Z] masked to 32 bits. *)

Module Sha256.

Definition mask32 (x : Z) : Z := Z.land x (2 ^ 32 - 1).
Definition add32 (x y : Z) : Z := mask32 (x + y).
Definition rotr (x : Z) (n : Z) : Z :=
  Z.lor (Z.shiftr x n) (mask32 (Z.shiftl x (32 - n))).
Definition not32 (x : Z) : Z := Z.lxor x (2 ^ 32 - 1).

Definition ch (e f g : Z) : Z := Z.lxor (Z.land e f) (Z.land (not32 e) g).
Definition maj (a b c : Z) : Z :=
  Z.lxor (Z.lxor (Z.land a b) (Z.land a c)) (Z.land b c).
Definition bsig0 (a : Z) : Z := Z.lxor (Z.lxor (rotr a 2) (rotr a 13)) (rotr a 22).
Definition bsig1 (e : Z) : Z := Z.lxor (Z.lxor (rotr e 6) (rotr e 11)) (rotr e 25).
Definition ssig0 (w : Z) : Z := Z.lxor (Z.lxor (rotr w 7) (rotr w 18)) (Z.shiftr w 3).
Definition ssig1 (w : Z) : Z := Z.lxor (Z.lxor (rotr w 17) (rotr w 19)) (Z.shiftr w 10).

(** The round constants and the initial hash value, as FIPS 180-4 defines
    them: the first 32 bits of the fractional parts of the cube roots of
    the first 64 primes, and of the square roots of the first 8 primes. *)
Definition is_prime (p : Z) : bool :=
  forallb (fun d => negb (Z.eqb (p mod d) 0)) (map Z.of_nat (seq 2 (Z.to_nat p - 2))).

Definition primes : list Z := filter is_prime (map Z.of_nat (seq 2 310)).

(** [lo^3 <= n < hi^3] is kept while the interval is halved *)
Fixpoint cbrt_search (fuel : nat) (lo hi n : Z) : Z :=
  match fuel with
  | O => lo
  | S f =>
      if Z.leb (hi - lo) 1 then lo
      else let m := (lo + hi) / 2 in
           if Z.leb (m * m * m) n then cbrt_search f m hi n else cbrt_search f lo m n
  end.

Definition cbrt (n : Z) : Z := cbrt_search 64 0 (2 ^ 36) n.

Definition K : list Z := map (fun p => mask32 (cbrt (p * 2 ^ 96))) primes.

Definition H0 : list Z := map (fun p => mask32 (Z.sqrt (p * 2 ^ 64))) (firstn 8 primes).

(** big-endian 32-bit words of a 64-byte block *)
Fixpoint words_of (bs : list Z) : list Z :=
  match bs with
  | b0 :: b1 :: b2 :: b3 :: rest =>
      (b0 * 2 ^ 24 + b1 * 2 ^ 16 + b2 * 2 ^ 8 + b3) :: words_of rest
  | _ => []
  end.

(** message schedule: [rw] holds W(t-1), W(t-2), ... newest first *)
Fixpoint extend (n : nat) (rw : list Z) : list Z :=
  match n with
  | O => rw
  | S n' =>
      let w := add32 (add32 (ssig1 (nth 1 rw 0)) (nth 6 rw 0))
                     (add32 (ssig0 (nth 14 rw 0)) (nth 15 rw 0)) in
      extend n' (w :: rw)
  end.

Definition schedule (block : list Z) : list Z :=
  rev (extend 48 (rev (words_of block))).

Definition round (st : list Z) (kw : Z * Z) : list Z :=
  match st with
  | [a; b; c; d; e; f; g; h] =>
      let t1 := add32 (add32 (add32 h (bsig1 e)) (add32 (ch e f g) (fst kw))) (snd kw) in
      let t2 := add32 (bsig0 a) (maj a b c) in
      [add32 t1 t2; a; b; c; add32 d t1; e; f; g]
  | _ => st
  end.

Definition compress (hs : list Z) (block : list Z) : list Z :=
  let st := fold_left round (combine K (schedule block)) hs in
  map (fun '(x, y) => add32 x y) (combine hs st).

Fixpoint blocks (fuel : nat) (bs : list Z) : list (list Z) :=
  match fuel with
  | O => []
  | S f => match bs with
           | [] => []
           | _ => firstn 64 bs :: blocks f (skipn 64 bs)
           end
  end.

Fixpoint be_bytes (n : nat) (x : Z) : list Z :=
  match n with
  | O => []
  | S n' => be_bytes n' (Z.shiftr x 8) ++ [Z.land x 255]
  end.

Definition pad (bs : list Z) : list Z :=
  let l := Z.of_nat (length bs) in
  let k := (55 - l) mod 64 in
  bs ++ [0x80] ++ repeat 0 (Z.to_nat k) ++ be_bytes 8 (8 * l).

Definition digest_Z (bs : list Z) : list Z :=
  let p := pad bs in
  let hs := fold_left compress (blocks (length p) p) H0 in
  flat_map (be_bytes 4) hs.

Definition Z_of_byte (b : byte) : Z := Z.of_N (Byte.to_N b).
Definition byte_of_Z (z : Z) : byte :=
  match Byte.of_N (Z.to_N z) with Some b => b | None => x00 end.

Definition digest (msg : list byte) : list byte :=
  map byte_of_Z (digest_Z (map Z_of_byte msg)).

(** hmac.new(key, msg, hashlib.sha256).digest() *)
Definition hmac (key msg : list byte) : list byte :=
  let k := map Z_of_byte (if Nat.ltb 64 (length key) then digest key else key) in
  let k := k ++ repeat 0 (64 - length k) in
  let ipad := map byte_of_Z (map (Z.lxor 0x36) k) in
  let opad := map byte_of_Z (map (Z.lxor 0x5c) k) in
  digest (opad ++ digest (ipad ++ msg)).

End Sha256.

(** The HS256 primitives agree with the published test vectors
    (FIPS 180-2 "abc" and RFC 4231 test case 2). *)
Example sha256_abc :
  map Sha256.Z_of_byte (Sha256.digest (list_byte_of_string "abc")) =
  [186; 120; 22; 191; 143; 1; 207; 234; 65; 65; 64; 222; 93; 174; 34; 35;
   176; 3; 97; 163; 150; 23; 122; 156; 180; 16; 255; 97; 242; 0; 21; 173].
Proof. vm_compute. reflexivity. Qed.

Example hmac_rfc4231_case2 :
  map Sha256.Z_of_byte
    (Sha256.hmac (list_byte_of_string "Jefe")
                 (list_byte_of_string "what do ya want for nothing?")) =
  [91; 220; 193; 70; 191; 96; 117; 78; 106; 4; 36; 38; 8; 149; 117; 199;
   90; 0; 63; 8; 157; 39; 57; 131; 157; 236; 88; 185; 100; 236; 56; 67].
Proof. vm_compute. reflexivity. Qed.

(* ------------------------------------------------------------------ *)
(** ** PyJWT's base64url_encode / base64url_decode

    [base64url_encode] is [base64.urlsafe_b64encode(x).replace(b"=", b"")];
    it is written here on the bit string of the input, most significant bit
    first, cut in sextets, the last one padded with zero bits.
    [base64url_decode] re-pads and calls [urlsafe_b64decode]: a length of
    1 modulo 4 is an error, and trailing bits that do not fill a byte are
    dropped.  A character outside the alphabet makes this model fail
    (binascii would skip it); the segments decoded below never have one. *)

Module B64.

Local Open Scope string_scope.

Definition alphabet : string :=
  "ABCDEFGHIJKLMNOPQRSTUVWXYZabcdefghijklmnopqrstuvwxyz0123456789-_".

Definition bits_of_byte (b : byte) : list bool :=
  match ascii_of_byte b with
  | Ascii b0 b1 b2 b3 b4 b5 b6 b7 => [b7; b6; b5; b4; b3; b2; b1; b0]
  end.

Definition nat_of_bits (l : list bool) : nat :=
  fold_left (fun acc (b : bool) => 2 * acc + (if b then 1 else 0))%nat l 0%nat.

Definition char6 (a b c d e f : bool) : ascii :=
  match get (nat_of_bits [a; b; c; d; e; f]) alphabet with
  | Some ch => ch
  | None => "="%char
  end.

Fixpoint enc_bits (bs : list bool) : string :=
  match bs with
  | a :: b :: c :: d :: e :: f :: rest => String (char6 a b c d e f) (enc_bits rest)
  | [] => EmptyString
  | [a] => String (char6 a false false false false false) EmptyString
  | [a; b] => String (char6 a b false false false false) EmptyString
  | [a; b; c] => String (char6 a b c false false false) EmptyString
  | [a; b; c; d] => String (char6 a b c d false false) EmptyString
  | [a; b; c; d; e] => String (char6 a b c d e false) EmptyString
  end.

Definition base64url_encode (input : list byte) : string :=
  enc_bits (flat_map bits_of_byte input).

(** position of a character in the alphabet, as six bits *)
Fixpoint index_of (c : ascii) (s : string) (i : nat) : option nat :=
  match s with
  | EmptyString => None
  | String c' s' => if Ascii.eqb c c' then Some i else index_of c s' (S i)
  end.

Definition bits6 (n : nat) : list bool :=
  [Nat.testbit n 5; Nat.testbit n 4; Nat.testbit n 3;
   Nat.testbit n 2; Nat.testbit n 1; Nat.testbit n 0].

Fixpoint dec_chars (s : string) : option (list bool) :=
  match s with
  | EmptyString => Some []
  | String c s' =>
      match index_of c alphabet 0, dec_chars s' with
      | Some n, Some rest => Some (bits6 n ++ rest)%list
      | _, _ => None
      end
  end.

Fixpoint bytes_of_bits (bs : list bool) : list byte :=
  match bs with
  | b7 :: b6 :: b5 :: b4 :: b3 :: b2 :: b1 :: b0 :: rest =>
      byte_of_ascii (Ascii b0 b1 b2 b3 b4 b5 b6 b7) :: bytes_of_bits rest
  | _ => []
  end.

Definition base64url_decode (input : string) : option (list byte) :=
  if Nat.eqb (Nat.modulo (String.length input) 4) 1 then None
  else option_map bytes_of_bits (dec_chars input).

End B64.

(* ------------------------------------------------------------------ *)
(** ** The json module

    JSON values as Python's [json] produces and reads them (no floats).
    An object is the list of its members in insertion order, as a Python
    dict keeps them. [dumps] is [json.dumps(v, separators=(",", ":"))]
    with the default [ensure_ascii=True] (what PyJWT writes in a token);
    [dumps_indent] is [json.dump(v, f, indent=2)]; [loads] reads the compact
    form back, as [json.loads] does on a token payload. A Rocq [ascii]
    stands for the code point of the same number. *)

Module Json.

Local Open Scope string_scope.

Inductive jval :=
| JNull
| JBool (b : bool)
| JInt (z : Z)
| JStr (s : string)
| JArr (l : list jval)
| JObj (kvs : list (string * jval)).

Definition chr (n : nat) : string := String (ascii_of_nat n) EmptyString.
Definition nl : string := chr 10.

Definition hex_digit (n : nat) : ascii :=
  match get n "0123456789abcdef" with Some c => c | None => "0"%char end.

(** one character of [encode_basestring_ascii] *)
Definition esc_char (c : ascii) : string :=
  let n := nat_of_ascii c in
  if Ascii.eqb c "034"%char then String "\" dq
  else if Ascii.eqb c "\" then "\\"
  else if Nat.eqb n 8 then "\b"
  else if Nat.eqb n 12 then "\f"
  else if Nat.eqb n 10 then "\n"
  else if Nat.eqb n 13 then "\r"
  else if Nat.eqb n 9 then "\t"
  else if Nat.leb 32 n && Nat.leb n 126 then String c EmptyString
  else String "\" (String "u" (String "0" (String "0"
         (String (hex_digit (n / 16)) (String (hex_digit (n mod 16)) EmptyString))))).

Fixpoint esc (s : string) : string :=
  match s with
  | EmptyString => EmptyString
  | String c s' => esc_char c ++ esc s'
  end.

Definition quote (s : string) : string := dq ++ esc s ++ dq.

(** [str(z)] for a Python int *)
Definition str_N (n : N) : string := NilEmpty.string_of_uint (N.to_uint n).
Definition str_int (z : Z) : string :=
  if (z <? 0)%Z then "-" ++ str_N (Z.to_N (- z)) else str_N (Z.to_N z).

Fixpoint dumps (v : jval) : string :=
  match v with
  | JNull => "null"
  | JBool true => "true"
  | JBool false => "false"
  | JInt z => str_int z
  | JStr s => quote s
  | JArr l =>
      "[" ++ (fix items (l : list jval) : string :=
                match l with
                | [] => ""
                | x :: t => dumps x ++ match t with [] => "" | _ => "," ++ items t end
                end) l ++ "]"
  | JObj kvs =>
      "{" ++ (fix members (kvs : list (string * jval)) : string :=
                match kvs with
                | [] => ""
                | (k, x) :: t =>
                    quote k ++ ":" ++ dumps x
                    ++ match t with [] => "" | _ => "," ++ members t end
                end) kvs ++ "}"
  end.

Fixpoint spaces (n : nat) : string :=
  match n with O => "" | S n' => " " ++ spaces n' end.
Definition ind (lvl : nat) : string := spaces (2 * lvl).

Fixpoint dumps_indent (lvl : nat) (v : jval) : string :=
  match v with
  | JArr [] => "[]"
  | JArr l =>
      "[" ++ nl ++ ind (S lvl)
      ++ (fix items (l : list jval) : string :=
            match l with
            | [] => ""
            | x :: t => dumps_indent (S lvl) x
                        ++ match t with [] => "" | _ => "," ++ nl ++ ind (S lvl) ++ items t end
            end) l
      ++ nl ++ ind lvl ++ "]"
  | JObj [] => "{}"
  | JObj kvs =>
      "{" ++ nl ++ ind (S lvl)
      ++ (fix members (kvs : list (string * jval)) : string :=
            match kvs with
            | [] => ""
            | (k, x) :: t =>
                quote k ++ ": " ++ dumps_indent (S lvl) x
                ++ match t with [] => "" | _ => "," ++ nl ++ ind (S lvl) ++ members t end
            end) kvs
      ++ nl ++ ind lvl ++ "}"
  | _ => dumps v
  end.

(** reading back *)

Definition hex_val (c : ascii) : option nat :=
  let n := nat_of_ascii c in
  if Nat.leb 48 n && Nat.leb n 57 then Some (n - 48)%nat
  else if Nat.leb 97 n && Nat.leb n 102 then Some (n - 87)%nat
  else if Nat.leb 65 n && Nat.leb n 70 then Some (n - 55)%nat
  else None.

Definition unicode_escape (h1 h2 h3 h4 : ascii) : option ascii :=
  match hex_val h1, hex_val h2, hex_val h3, hex_val h4 with
  | Some a, Some b, Some c, Some d =>
      let n := (((a * 16 + b) * 16 + c) * 16 + d)%nat in
      if Nat.ltb n 256 then Some (ascii_of_nat n) else None
  | _, _, _, _ => None
  end.

Definition cons_fst (c : ascii) (r : option (string * string)) : option (string * string) :=
  match r with Some (s, rest) => Some (String c s, rest) | None => None end.

(** the body of a string literal, after its opening quote *)
Fixpoint parse_str (s : string) : option (string * string) :=
  match s with
  | EmptyString => None
  | String c r =>
      if Ascii.eqb c "034"%char then Some (EmptyString, r)
      else if Ascii.eqb c "\" then
        match r with
        | String "u" (String h1 (String h2 (String h3 (String h4 r')))) =>
            match unicode_escape h1 h2 h3 h4 with
            | Some c' => cons_fst c' (parse_str r')
            | None => None
            end
        | String e r' =>
            match e with
            | "034"%char => cons_fst "034"%char (parse_str r')
            | "\"%char => cons_fst "\" (parse_str r')
            | "/"%char => cons_fst "/" (parse_str r')
            | "b"%char => cons_fst (ascii_of_nat 8) (parse_str r')
            | "f"%char => cons_fst (ascii_of_nat 12) (parse_str r')
            | "n"%char => cons_fst (ascii_of_nat 10) (parse_str r')
            | "r"%char => cons_fst (ascii_of_nat 13) (parse_str r')
            | "t"%char => cons_fst (ascii_of_nat 9) (parse_str r')
            | _ => None
            end
        | EmptyString => None
        end
      else if Nat.ltb (nat_of_ascii c) 32 then None
      else cons_fst c (parse_str r)
  end.

Definition is_digit (c : ascii) : bool :=
  Nat.leb 48 (nat_of_ascii c) && Nat.leb (nat_of_ascii c) 57.

Fixpoint span_digits (s : string) : string * string :=
  match s with
  | String c r =>
      if is_digit c then let (ds, rest) := span_digits r in (String c ds, rest)
      else (EmptyString, s)
  | EmptyString => (EmptyString, EmptyString)
  end.

Definition parse_nat (s : string) : option (N * string) :=
  match span_digits s with
  | (EmptyString, _) => None
  | (ds, rest) =>
      match NilEmpty.uint_of_string ds with
      | Some d => Some (N.of_uint d, rest)
      | None => None
      end
  end.

Definition parse_int (s : string) : option (Z * string) :=
  match s with
  | String c r =>
      if Ascii.eqb c "-" then
        match parse_nat r with Some (n, rest) => Some (- Z.of_N n, rest) | None => None end
      else
        match parse_nat s with Some (n, rest) => Some (Z.of_N n, rest) | None => None end
  | EmptyString => None
  end.

Fixpoint parse_value (fuel : nat) (s : string) : option (jval * string) :=
  match fuel with
  | O => None
  | S f =>
      match s with
      | EmptyString => None
      | String c r =>
          if Ascii.eqb c "n" then
            match r with String "u" (String "l" (String "l" r')) => Some (JNull, r') | _ => None end
          else if Ascii.eqb c "t" then
            match r with String "r" (String "u" (String "e" r')) => Some (JBool true, r') | _ => None end
          else if Ascii.eqb c "f" then
            match r with
            | String "a" (String "l" (String "s" (String "e" r'))) => Some (JBool false, r')
            | _ => None
            end
          else if Ascii.eqb c "034"%char then
            match parse_str r with Some (x, r') => Some (JStr x, r') | None => None end
          else if Ascii.eqb c "[" then
            match r with
            | String c' r' =>
                if Ascii.eqb c' "]" then Some (JArr [], r')
                else match parse_items f r with Some (l, r'') => Some (JArr l, r'') | None => None end
            | EmptyString => None
            end
          else if Ascii.eqb c "{" then
            match r with
            | String c' r' =>
                if Ascii.eqb c' "}" then Some (JObj [], r')
                else match parse_members f r with Some (l, r'') => Some (JObj l, r'') | None => None end
            | EmptyString => None
            end
          else match parse_int s with Some (z, r') => Some (JInt z, r') | None => None end
      end
  end
with parse_items (fuel : nat) (s : string) : option (list jval * string) :=
  match fuel with
  | O => None
  | S f =>
      match parse_value f s with
      | Some (x, String "," r) =>
          match parse_items f r with Some (l, r') => Some (x :: l, r') | None => None end
      | Some (x, String "]" r) => Some ([x], r)
      | _ => None
      end
  end
with parse_members (fuel : nat) (s : string) : option (list (string * jval) * string) :=
  match fuel with
  | O => None
  | S f =>
      match s with
      | String "034"%char r =>
          match parse_str r with
          | Some (k, String ":" r1) =>
              match parse_value f r1 with
              | Some (x, String "," r2) =>
                  match parse_members f r2 with
                  | Some (l, r') => Some ((k, x) :: l, r')
                  | None => None
                  end
              | Some (x, String "}" r2) => Some ([(k, x)], r2)
              | _ => None
              end
          | _ => None
          end
      | _ => None
      end
  end.

(** [json.loads]: the whole text must be one value *)
Definition loads (s : string) : option jval :=
  match parse_value (S (String.length s)) s with
  | Some (v, EmptyString) => Some v
  | _ => None
  end.

(** [d[k]] on the dict [json.loads] builds: a later member wins *)
Fixpoint get_key (k : string) (kvs : list (string * jval)) : option jval :=
  match kvs with
  | [] => None
  | (k', x) :: t =>
      match get_key k t with
      | Some y => Some y
      | None => if String.eqb k k' then Some x else None
      end
  end.

End Json.

(* ------------------------------------------------------------------ *)
(** ** datetime and uuid *)

Module Py.

Import Json.
Local Open Scope string_scope.

(** A naive [datetime] is its distance to 1970-01-01 00:00:00 in
    microseconds; [datetime.min] and [datetime.max] bound it. *)
Definition datetime_min : Z := -62135596800000000.
Definition datetime_max : Z := 253402300799999999.

(** [timedelta(hours=h)] in microseconds *)
Definition timedelta_hours (h : Z) : Z := h * 3600 * 1000000.

(** [dt + delta], which raises OverflowError outside the datetime range *)
Definition dt_add (dt delta : Z) : res Z :=
  let r := (dt + delta)%Z in
  if ((r <? datetime_min) || (datetime_max <? r))%Z
  then Err (OverflowError "date value out of range") else Ok r.

(** [calendar.timegm(dt.utctimetuple())]: whole seconds, the microseconds
    dropped *)
Definition timegm (dt : Z) : Z := dt / 1000000.

(** [int.from_bytes(bs, "big")] *)
Definition from_bytes_be (bs : list byte) : Z :=
  fold_left (fun acc b => acc * 256 + Sha256.Z_of_byte b)%Z bs 0%Z.

(** [UUID(bytes=bs, version=4)], the body of [uuid.uuid4()] *)
Definition uuid_of_bytes (bs : list byte) : res Z :=
  if negb (Nat.eqb (List.length bs) 16) then Err (ValueError "bytes is not a 16-char string")
  else
    let n := from_bytes_be bs in
    let n := Z.land n (Z.lnot (Z.shiftl 0xc000 48)) in
    let n := Z.lor n (Z.shiftl 0x8000 48) in
    let n := Z.land n (Z.lnot (Z.shiftl 0xf000 64)) in
    Ok (Z.lor n (Z.shiftl 4 76)).

(** ['%032x' % n] *)
Fixpoint hex_digits (k : nat) (n : Z) : string :=
  match k with
  | O => ""
  | S k' => hex_digits k' (n / 16) ++ String (hex_digit (Z.to_nat (n mod 16))) ""
  end.

(** [str(UUID)] *)
Definition uuid_str (u : Z) : string :=
  let hex := hex_digits 32 u in
  substring 0 8 hex ++ "-" ++ substring 8 4 hex ++ "-" ++ substring 12 4 hex
  ++ "-" ++ substring 16 4 hex ++ "-" ++ substring 20 12 hex.

(** [s.upper()] on ASCII letters *)
Definition upper_char (c : ascii) : ascii :=
  let n := nat_of_ascii c in
  if Nat.leb 97 n && Nat.leb n 122 then ascii_of_nat (n - 32) else c.
Fixpoint upper (s : string) : string :=
  match s with
  | EmptyString => EmptyString
  | String c r => String (upper_char c) (upper r)
  end.

(** [str(v)] inside an f-string; the tables of the script only hold
    strings, the other cases follow [str] on scalars and fall back to the
    JSON text on containers. *)
Definition py_str (v : jval) : string :=
  match v with
  | JStr s => s
  | JInt z => str_int z
  | JBool true => "True"
  | JBool false => "False"
  | JNull => "None"
  | _ => dumps v
  end.

(** [s.split(".")] *)
Fixpoint split_dot (s : string) : list string :=
  match s with
  | EmptyString => [EmptyString]
  | String c r =>
      let parts := split_dot r in
      if Ascii.eqb c "." then EmptyString :: parts
      else match parts with
           | p :: ps => String c p :: ps
           | [] => [String c EmptyString]
           end
  end.

(** a Python dict as the list of its items in insertion order (keys are
    distinct): [d.get(k)] and [d[k] = v] *)
Fixpoint dict_get {A} (k : string) (d : list (string * A)) : option A :=
  match d with
  | [] => None
  | (k', x) :: t => if String.eqb k k' then Some x else dict_get k t
  end.

Fixpoint dict_set {A} (k : string) (x : A) (d : list (string * A)) : list (string * A) :=
  match d with
  | [] => [(k, x)]
  | (k', y) :: t => if String.eqb k k' then (k', x) :: t else (k', y) :: dict_set k x t
  end.

End Py.

(* ------------------------------------------------------------------ *)
(** ** PyJWT 2.x: [jwt.encode(payload, key, algorithm="HS256")]

    The payload dict holds JSON values and, under exp, nbf and iat,
    datetimes, which [jwt.encode] turns into [timegm] integers before
    [json.dumps(payload, separators=(",", ":"))]; a datetime anywhere else
    is not JSON serializable. The header is dumped with sorted keys. *)

Module Jwt.

Import Json.
Local Open Scope string_scope.

Inductive pyval :=
| PyJ (v : jval)
| PyDatetime (dt : Z).

Definition time_claims : list string := ["exp"; "iat"; "nbf"].

Fixpoint convert_times (payload : list (string * pyval)) : res (list (string * jval)) :=
  match payload with
  | [] => Ok []
  | (k, PyJ v) :: t => let! t' := convert_times t in Ok ((k, v) :: t')
  | (k, PyDatetime dt) :: t =>
      if existsb (String.eqb k) time_claims
      then let! t' := convert_times t in Ok ((k, JInt (Py.timegm dt)) :: t')
      else Err (TypeError "Object of type datetime is not JSON serializable")
  end.

Definition header (algorithm : string) : jval :=
  JObj [("alg", JStr algorithm); ("typ", JStr "JWT")].

Definition encode (payload : list (string * pyval)) (key algorithm : string) : res string :=
  let! claims := convert_times payload in
  if negb (String.eqb algorithm "HS256") then Err (NotImplementedError "Algorithm not supported")
  else
    let h := B64.base64url_encode (list_byte_of_string (dumps (header algorithm))) in
    let p := B64.base64url_encode (list_byte_of_string (dumps (JObj claims))) in
    let signing_input := h ++ "." ++ p in
    let signature := Sha256.hmac (list_byte_of_string key) (list_byte_of_string signing_input) in
    Ok (signing_input ++ "." ++ B64.base64url_encode signature).

(** The claims a token carries: its middle segment, base64url-decoded and
    read by [json.loads] (what [jwt.decode] returns once the signature and
    the claims are not checked). *)
Definition decoded_payload (token : string) : option (list (string * jval)) :=
  match Py.split_dot token with
  | [_; p; _] =>
      match B64.base64url_decode p with
      | Some bs =>
          match loads (string_of_list_byte bs) with
          | Some (JObj kvs) => Some kvs
          | _ => None
          end
      | None => None
      end
  | _ => None
  end.

End Jwt.

(* ------------------------------------------------------------------ *)
(** ** The process: clock, randomness, files, standard streams *)

Record world := mk_world {
  now_at : nat -> Z;             (** the n-th reading of datetime.utcnow() *)
  ticks : nat;                   (** readings taken so far *)
  urandom_at : nat -> list byte; (** the n-th os.urandom(16) draw *)
  draws : nat;                   (** draws taken so far *)
  files : list (string * string);
  stdout : list string;          (** lines printed, oldest first *)
  stderr : list string
}.

(** A statement runs on the world and returns a value or raises; the
    effects that happened before an exception stay. *)
Definition M (A : Type) : Type := world -> res A * world.

Definition ret {A} (a : A) : M A := fun w => (Ok a, w).
Definition bind {A B} (c : M A) (k : A -> M B) : M B :=
  fun w => match c w with
           | (Ok a, w') => k a w'
           | (Err e, w') => (Err e, w')
           end.
Definition raise {A} (e : exc) : M A := fun w => (Err e, w).
Definition lift {A} (r : res A) : M A := fun w => (r, w).

Notation "x <- c ;; k" := (bind c (fun x => k))
  (at level 61, c at next level, right associativity).
Notation "c ;;; k" := (bind c (fun _ => k)) (at level 61, right associativity).

Definition set_ticks (w : world) (n : nat) : world :=
  mk_world (now_at w) n (urandom_at w) (draws w) (files w) (stdout w) (stderr w).
Definition set_draws (w : world) (n : nat) : world :=
  mk_world (now_at w) (ticks w) (urandom_at w) n (files w) (stdout w) (stderr w).
Definition set_files (w : world) (fs : list (string * string)) : world :=
  mk_world (now_at w) (ticks w) (urandom_at w) (draws w) fs (stdout w) (stderr w).
Definition set_stdout (w : world) (o : list string) : world :=
  mk_world (now_at w) (ticks w) (urandom_at w) (draws w) (files w) o (stderr w).
Definition set_stderr (w : world) (o : list string) : world :=
  mk_world (now_at w) (ticks w) (urandom_at w) (draws w) (files w) (stdout w) o.

(** [datetime.utcnow()] *)
Definition utcnow : M Z :=
  fun w => (Ok (now_at w (ticks w)), set_ticks w (S (ticks w))).

(** [uuid.uuid4()] *)
Definition uuid4 : M Z :=
  fun w => (Py.uuid_of_bytes (urandom_at w (draws w)), set_draws w (S (draws w))).

(** [print(s)] *)
Definition print (s : string) : M unit :=
  fun w => (Ok tt, set_stdout w (stdout w ++ [s])).

(** [with open(path, "w") as f: f.write(text)]: the file is truncated
    and replaced *)
Definition write_file (path text : string) : M unit :=
  fun w => (Ok tt, set_files w (Py.dict_set path text (files w))).

(** [d[k]] *)
Definition getitem {A} (d : list (string * A)) (k : string) : M A :=
  match Py.dict_get k d with Some x => ret x | None => raise (KeyError k) end.

(* ------------------------------------------------------------------ *)
(** ** generate_token.py *)

Module Script.

Import Json Jwt.
Local Open Scope string_scope.

Definition JWT_SECRET : string := "your-super-secret-jwt-key-change-this-in-production".
Definition JWT_ISSUER : string := "ga-ticketing-system".
Definition ALGORITHM : string := "HS256".

(** a user_info dict *)
Definition profile : Type := list (string * jval).

(** the payload dict literal, its values evaluated left to right *)
Definition generate_token (user_info : profile) : M string :=
  now <- utcnow ;;
  expires_at <- lift (Py.dt_add now (Py.timedelta_hours 24)) ;;
  user_id <- getitem user_info "id" ;;
  employee_id <- getitem user_info "employee_id" ;;
  name <- getitem user_info "name" ;;
  email <- getitem user_info "email" ;;
  role <- getitem user_info "role" ;;
  department <- getitem user_info "department" ;;
  jti <- uuid4 ;;
  sub <- getitem user_info "id" ;;
  let payload :=
    [("user_id", PyJ user_id);
     ("employee_id", PyJ employee_id);
     ("name", PyJ name);
     ("email", PyJ email);
     ("role", PyJ role);
     ("department", PyJ department);
     ("jti", PyJ (JStr (Py.uuid_str jti)));
     ("iss", PyJ (JStr JWT_ISSUER));
     ("sub", PyJ sub);
     ("aud", PyJ (JArr [JStr "ga-ticketing-client"]));
     ("exp", PyDatetime expires_at);
     ("nbf", PyDatetime now);
     ("iat", PyDatetime now)] in
  (* PyJWT 2.x returns str, so the bytes branch is never taken *)
  lift (Jwt.encode payload JWT_SECRET ALGORITHM).

Definition users : list (string * profile) :=
  [("requester",
     [("id", JStr "req-001"); ("employee_id", JStr "EMP001");
      ("name", JStr "John Requester"); ("email", JStr "john.requester@company.com");
      ("role", JStr "requester"); ("department", JStr "IT")]);
   ("approver",
     [("id", JStr "app-001"); ("employee_id", JStr "EMP002");
      ("name", JStr "Jane Approver"); ("email", JStr "jane.approver@company.com");
      ("role", JStr "approver"); ("department", JStr "Finance")]);
   ("admin",
     [("id", JStr "adm-001"); ("employee_id", JStr "EMP003");
      ("name", JStr "Admin User"); ("email", JStr "admin@company.com");
      ("role", JStr "admin"); ("department", JStr "GA")])].

Fixpoint repeat_str (n : nat) (s : string) : string :=
  match n with O => "" | S n' => s ++ repeat_str n' s end.

(** [for role, user_info in users.items(): ...] accumulating [tokens] *)
Fixpoint token_loop (todo : list (string * profile)) (tokens : list (string * string))
  : M (list (string * string)) :=
  match todo with
  | [] => ret tokens
  | (role, user_info) :: rest =>
      token <- generate_token user_info ;;
      let tokens := Py.dict_set role token tokens in
      print (Py.upper role ++ " USER:") ;;;
      name <- getitem user_info "name" ;;
      print ("  Name: " ++ Py.py_str name) ;;;
      email <- getitem user_info "email" ;;
      print ("  Email: " ++ Py.py_str email) ;;;
      r <- getitem user_info "role" ;;
      print ("  Role: " ++ Py.py_str r) ;;;
      print ("  Token: " ++ token) ;;;
      print "" ;;;
      token_loop rest tokens
  end.

Definition tokens_json (tokens : list (string * string)) : jval :=
  JObj (map (fun '(k, t) => (k, JStr t)) tokens).

Definition main : M unit :=
  print "GA Ticketing System - JWT Token Generator" ;;;
  print (repeat_str 50 "=") ;;;
  print "" ;;;
  tokens <- token_loop users [] ;;
  write_file "test_tokens.json" (dumps_indent 0 (tokens_json tokens)) ;;;
  print "Tokens saved to: test_tokens.json" ;;;
  print "" ;;;
  print "Usage examples:" ;;;
  t_req <- getitem tokens "requester" ;;
  print ("export REQUESTER_TOKEN=" ++ dq ++ t_req ++ dq) ;;;
  t_app <- getitem tokens "approver" ;;
  print ("export APPROVER_TOKEN=" ++ dq ++ t_app ++ dq) ;;;
  t_adm <- getitem tokens "admin" ;;
  print ("export ADMIN_TOKEN=" ++ dq ++ t_adm ++ dq).

(** [import jwt]: ModuleNotFoundError (an ImportError) when PyJWT is
    not installed *)
Definition import_jwt (installed : bool) : M unit :=
  if installed then ret tt else raise (ModuleNotFoundError "No module named 'jwt'").

(** [try: c except ImportError: h] *)
Definition try_except_ImportError (c : M unit) (h : M unit) : M unit :=
  fun w => match c w with
           | (Err (ModuleNotFoundError _), w') => h w'
           | r => r
           end.

Definition sys_exit (code : Z) : M unit := raise (SystemExit code).

(** the whole module run as [python generate_token.py] *)
Definition module_body (installed : bool) : M unit :=
  import_jwt installed ;;;          (* line 7: import jwt *)
  (* json, datetime and uuid are standard modules; the defs only bind names *)
  try_except_ImportError (import_jwt installed)
    (print "Error: PyJWT is not installed." ;;;
     print "Install it with: pip install PyJWT" ;;;
     sys_exit 1) ;;;
  main.

Definition exc_name (e : exc) : string :=
  match e with
  | KeyError k => "KeyError: '" ++ k ++ "'"
  | OverflowError m => "OverflowError: " ++ m
  | TypeError m => "TypeError: " ++ m
  | ValueError m => "ValueError: " ++ m
  | NotImplementedError m => "NotImplementedError: " ++ m
  | ModuleNotFoundError m => "ModuleNotFoundError: " ++ m
  | SystemExit _ => ""
  end.

(** The interpreter: exit status 0 on normal end, the code of SystemExit,
    and 1 after an uncaught exception, whose traceback ends with the
    exception line on stderr. *)
Definition run (installed : bool) (w : world) : Z * world :=
  match module_body installed w with
  | (Ok _, w') => (0%Z, w')
  | (Err (SystemExit c), w') => (c, w')
  | (Err e, w') =>
      (1%Z, set_stderr w' (stderr w' ++ ["Traceback (most recent call last):"; exc_name e]))
  end.

End Script.

(* ------------------------------------------------------------------ *)
(** ** Concrete runs *)

Module Demo.
Import Json Script.
Local Open Scope string_scope.

Definition bytes_a : list byte :=
  [x3f; xa1; x07; x5c; xe2; x19; x88; x40; x6b; xd3; x2e; x91; x04; xf7; x5a; xc6].
Definition bytes_b : list byte :=
  [x00; x11; x22; x33; x44; x55; x66; x77; x88; x99; xaa; xbb; xcc; xdd; xee; xff].

(** 2023-11-14 22:13:20.123456 *)
Definition demo_time : Z := 1700000000123456.

(** a process whose clock always reads [t] and whose os.urandom always
    returns [bs] *)
Definition demo_world (t : Z) (bs : list byte) (fs : list (string * string)) : world :=
  mk_world (fun _ => t) 0 (fun _ => bs) 0 fs [] [].

Definition w_a : world := demo_world demo_time bytes_a [].
Definition w_b : world := demo_world demo_time bytes_b [].
(** the clock one microsecond before datetime.max, and an earlier bundle
    on disk *)
Definition w_late : world :=
  demo_world (Py.datetime_max - 1) bytes_a [("test_tokens.json", "{}")].

Definition admin_info : profile :=
  match users with [_; _; (_, p)] => p | _ => [] end.

(** the requester's profile without its email *)
Definition profile_no_email : profile :=
  [("id", JStr "req-001"); ("employee_id", JStr "EMP001");
   ("name", JStr "John Requester"); ("role", JStr "requester");
   ("department", JStr "IT")].

Definition token_of {A} (r : res A * world) (d : A) : A :=
  match fst r with Ok t => t | Err _ => d end.

Definition tok_a : string := token_of (generate_token admin_info w_a) "".
Definition tok_b : string := token_of (generate_token admin_info w_b) "".

End Demo.

(* ------------------------------------------------------------------ *)
(** ** Predicates on the script's strings and profiles *)

Module Shape.
Import Script.
Local Open Scope string_scope.

(** [p] holds of every character of [s] *)
Fixpoint all_chars (p : ascii -> bool) (s : string) : bool :=
  match s with
  | EmptyString => true
  | String c r => p c && all_chars p r
  end.

(** a character of the base64url alphabet, or the segment separator *)
Definition url_safe_char (c : ascii) : bool :=
  existsb (Ascii.eqb c) (list_ascii_of_string (B64.alphabet ++ ".")).

(** a digit of ['%032x'] *)
Definition is_hex_char (c : ascii) : bool :=
  existsb (Ascii.eqb c) (list_ascii_of_string "0123456789abcdef").

(** the fields [generate_token] reads with [user_info[...]] *)
Definition profile_fields : list string :=
  ["id"; "employee_id"; "name"; "email"; "role"; "department"].

(** every field is present *)
Definition has_fields (info : profile) : bool :=
  forallb (fun k => match Py.dict_get k info with Some _ => true | None => false end)
          profile_fields.

(** where character [i] of [str(UUID)] comes from in its 32 hex digits *)
Definition uuid_src (i : nat) : nat :=
  if Nat.ltb i 8 then i
  else if Nat.ltb i 13 then i - 1
  else if Nat.ltb i 18 then i - 2
  else if Nat.ltb i 23 then i - 3
  else i - 4.

End Shape.

(* ================================================================== *)
(** * Properties *)

Module Reference.
Import Json Script.
Local Open Scope string_scope.

(** The admin token of a run at 1700000000.125456 whose uuid4 draw is
    sixteen 0x27 bytes, as the standard library's hmac, base64 and json
    modules compute it outside this development. *)
Example admin_token_reference :
  fst (generate_token
         (match Py.dict_get "admin" users with Some p => p | None => [] end)
         (mk_world (fun _ => 1700000000125456%Z) 0
                   (fun _ => repeat "039"%byte 16) 0 [] [] [])) =
  Ok ("eyJhbGciOiJIUzI1NiIsInR5cCI6IkpXVCJ9.eyJ1c2VyX2lkIjoiYWRtLTAwMSIsImVtcGxveWVlX2lkIjoiRU1QMDAzIiwibmFtZSI6IkFkbWluIFVzZXIiLCJlbWFpbCI6ImFkbWluQGNvbXBhbnkuY29tIiwicm9sZSI6ImFkbWluIiwiZGVwYXJ0bWVudCI6IkdBIiwianRpIjoiMjcyNzI3MjctMjcyNy00NzI3LWE3MjctMjcyNzI3MjcyNzI3IiwiaXNzIjoiZ2EtdGlja2V0aW5nLXN5c3RlbSIsInN1YiI6ImFkbS0wMDEiLCJhdWQiOlsiZ2EtdGlja2V0aW5nLWNsaWVudCJdLCJleHAiOjE3MDAwODY0MDAsIm5iZiI6MTcwMDAwMDAwMCwiaWF0IjoxNzAwMDAwMDAwfQ"
      ++ ".pIJ7_jVOs72eSGH3DI_yNI0Z4LhF6DOr9Wi62H7D-1Y").
Proof. vm_compute. reflexivity. Qed.

End Reference.

(* ------------------------------------------------------------------ *)
(** ** What a statement leaves unchanged *)

Module Io.
Import Script.

Section Keeps.
Variable R : world -> world -> Prop.
Hypothesis R_refl : forall w, R w w.
Hypothesis R_trans : forall w1 w2 w3, R w1 w2 -> R w2 w3 -> R w1 w3.

(** every run of [c] relates its initial and final world by [R] *)
Definition keeps {A} (c : M A) : Prop := forall w, R w (snd (c w)).

Lemma keeps_ret {A} (a : A) : keeps (ret a).
Proof. intro w; apply R_refl. Qed.

Lemma keeps_raise {A} e : keeps (A := A) (raise e).
Proof. intro w; apply R_refl. Qed.

Lemma keeps_lift {A} (r : res A) : keeps (lift r).
Proof. intro w; apply R_refl. Qed.

Lemma keeps_bind {A B} (c : M A) (k : A -> M B) :
  keeps c -> (forall a, keeps (k a)) -> keeps (bind c k).
Proof.
  intros Hc Hk w; unfold bind.
  specialize (Hc w); destruct (c w) as [[a | e] w1]; simpl in *; auto.
  eapply R_trans; [exact Hc | apply Hk].
Qed.

Lemma keeps_getitem {A} (d : list (string * A)) k : keeps (getitem d k).
Proof.
  unfold getitem; destruct (Py.dict_get k d); [apply keeps_ret | apply keeps_raise].
Qed.

End Keeps.

(** same files, same standard output and error *)
Definition same_io (w w' : world) : Prop :=
  files w' = files w /\ stdout w' = stdout w /\ stderr w' = stderr w.

Definition same_files (w w' : world) : Prop := files w' = files w.

Lemma same_io_refl w : same_io w w.
Proof. repeat split. Qed.

Lemma same_io_trans w1 w2 w3 : same_io w1 w2 -> same_io w2 w3 -> same_io w1 w3.
Proof. unfold same_io; intros (? & ? & ?) (? & ? & ?); repeat split; congruence. Qed.

Lemma same_files_refl w : same_files w w.
Proof. reflexivity. Qed.

Lemma same_files_trans w1 w2 w3 : same_files w1 w2 -> same_files w2 w3 -> same_files w1 w3.
Proof. unfold same_files; congruence. Qed.

Create HintDb io.
#[local] Hint Resolve same_io_refl same_io_trans same_files_refl same_files_trans : io.
#[local] Hint Resolve keeps_ret keeps_raise keeps_lift keeps_getitem : io.

Ltac keeps_chain :=
  repeat first [ solve [eauto with io] | apply keeps_bind | intros ? | progress cbv zeta ].

Lemma utcnow_io : keeps same_io utcnow.
Proof. intro w; repeat split. Qed.

Lemma uuid4_io : keeps same_io uuid4.
Proof. intro w; repeat split. Qed.

Lemma print_files s : keeps same_files (print s).
Proof. intro w; reflexivity. Qed.

#[local] Hint Resolve utcnow_io uuid4_io print_files : io.

(** [generate_token] touches neither the files nor the standard streams *)
Lemma generate_token_io p : keeps same_io (generate_token p).
Proof. unfold generate_token; keeps_chain. Qed.

Lemma generate_token_files p : keeps same_files (generate_token p).
Proof. intro w; apply (generate_token_io p w). Qed.

#[local] Hint Resolve generate_token_files : io.

(** nor does the loop of [main] write a file *)
Lemma token_loop_files todo tokens : keeps same_files (token_loop todo tokens).
Proof.
  revert tokens; induction todo as [| [role info] rest IH]; intro tokens; simpl.
  - apply keeps_ret; eauto with io.
  - keeps_chain.
Qed.

End Io.

(* ------------------------------------------------------------------ *)
(** ** Statements that never read the file system *)

Module Blind.
Import Script.

(** running [c] with other files gives the same result and leaves those
    files in place *)
Definition blind {A} (c : M A) : Prop :=
  forall w fs, c (set_files w fs) = (fst (c w), set_files (snd (c w)) fs).

Lemma blind_ret {A} (a : A) : blind (ret a).
Proof. intros w fs; reflexivity. Qed.

Lemma blind_raise {A} e : blind (A := A) (raise e).
Proof. intros w fs; reflexivity. Qed.

Lemma blind_lift {A} (r : res A) : blind (lift r).
Proof. intros w fs; reflexivity. Qed.

Lemma blind_getitem {A} (d : list (string * A)) k : blind (getitem d k).
Proof. unfold getitem; destruct (Py.dict_get k d); intros w fs; reflexivity. Qed.

Lemma blind_utcnow : blind utcnow.
Proof. intros w fs; reflexivity. Qed.

Lemma blind_uuid4 : blind uuid4.
Proof. intros w fs; reflexivity. Qed.

Lemma blind_print s : blind (print s).
Proof. intros w fs; reflexivity. Qed.

Lemma blind_bind {A B} (c : M A) (k : A -> M B) :
  blind c -> (forall a, blind (k a)) -> blind (bind c k).
Proof.
  intros Hc Hk w fs; unfold bind; rewrite Hc.
  destruct (c w) as [[a | e] w1]; simpl; [apply Hk | reflexivity].
Qed.

Create HintDb blind.
#[local] Hint Resolve blind_ret blind_raise blind_lift blind_getitem
  blind_utcnow blind_uuid4 blind_print : blind.

Ltac blind_chain :=
  repeat first [ solve [eauto with blind] | apply blind_bind | intros ? | progress cbv zeta ].

Lemma blind_generate_token p : blind (generate_token p).
Proof. unfold generate_token; blind_chain. Qed.

#[local] Hint Resolve blind_generate_token : blind.

Lemma blind_token_loop todo tokens : blind (token_loop todo tokens).
Proof.
  revert tokens; induction todo as [| [role info] rest IH]; intro tokens; simpl.
  - apply blind_ret.
  - blind_chain.
Qed.

End Blind.

(* ------------------------------------------------------------------ *)
(** ** The loop of [main] *)

Module Loop.
Import Json Script.
Local Open Scope string_scope.

Definition field (info : profile) (k : string) : jval :=
  match Py.dict_get k info with Some v => v | None => JNull end.

(** the console block printed for one role *)
Definition block (role : string) (info : profile) (token : string) : list string :=
  [Py.upper role ++ " USER:";
   "  Name: " ++ Py.py_str (field info "name");
   "  Email: " ++ Py.py_str (field info "email");
   "  Role: " ++ Py.py_str (field info "role");
   "  Token: " ++ token;
   ""].

Lemma bind_ok {A B} (c : M A) (k : A -> M B) w a w1 :
  c w = (Ok a, w1) -> bind c k w = k a w1.
Proof. unfold bind; intros ->; reflexivity. Qed.

Lemma getitem_ok {A} (d : list (string * A)) k w x w' :
  getitem d k w = (Ok x, w') -> Py.dict_get k d = Some x /\ w' = w.
Proof.
  unfold getitem; destruct (Py.dict_get k d); simpl; intro H; inversion H; auto.
Qed.

(** A loop that finishes produced one token per entry, stored in the
    dict and printed in the entry's block, and wrote no file. *)
Lemma token_loop_ok todo tokens w toks w' :
  token_loop todo tokens w = (Ok toks, w') ->
  exists ts,
    List.length ts = List.length todo /\
    toks = fold_left (fun acc '(r, t) => Py.dict_set r t acc)
                     (combine (map fst todo) ts) tokens /\
    stdout w' = (stdout w ++ flat_map (fun '((r, info), t) => block r info t)
                                      (combine todo ts))%list /\
    files w' = files w.
Proof.
  revert tokens w.
  induction todo as [| [role info] rest IH]; intros tokens w H; simpl in H.
  - inversion H; subst. exists []; simpl; rewrite List.app_nil_r; auto.
  - unfold bind at 1 in H.
    pose proof (Io.generate_token_io info w) as Hio.
    destruct (generate_token info w) as [[tok | e] w1] eqn:Eg; [| discriminate].
    simpl in Hio; destruct Hio as (Hf1 & Ho1 & _).
    unfold bind, print in H; simpl in H.
    destruct (getitem info "name" _) as [[nm | e] w2] eqn:En; [| discriminate].
    apply getitem_ok in En as [En ->].
    destruct (getitem info "email" _) as [[em | e] w3] eqn:Ee; [| discriminate].
    apply getitem_ok in Ee as [Ee ->].
    destruct (getitem info "role" _) as [[rl | e] w4] eqn:Er; [| discriminate].
    apply getitem_ok in Er as [Er ->].
    apply IH in H as (ts & Hlen & Htoks & Hout & Hfiles).
    exists (tok :: ts); simpl; repeat split.
    + now rewrite Hlen.
    + exact Htoks.
    + rewrite Hout; simpl.
      unfold block, field; rewrite En, Ee, Er, Ho1.
      repeat rewrite <- List.app_assoc; reflexivity.
    + rewrite Hfiles; simpl; exact Hf1.
Qed.

End Loop.

(* ------------------------------------------------------------------ *)
(** ** A run of [main] *)

Module Run.
Import Json Script Loop.
Local Open Scope string_scope.

Definition header_lines : list string :=
  ["GA Ticketing System - JWT Token Generator"; repeat_str 50 "="; ""].

Definition footer_lines (t_req t_app t_adm : string) : list string :=
  ["Tokens saved to: test_tokens.json"; ""; "Usage examples:";
   "export REQUESTER_TOKEN=" ++ dq ++ t_req ++ dq;
   "export APPROVER_TOKEN=" ++ dq ++ t_app ++ dq;
   "export ADMIN_TOKEN=" ++ dq ++ t_adm ++ dq].

Definition bundle (t_req t_app t_adm : string) : list (string * string) :=
  [("requester", t_req); ("approver", t_app); ("admin", t_adm)].

Definition info_of (role : string) : profile :=
  match Py.dict_get role users with Some p => p | None => [] end.

(** [main] either stops with the exception its loop raised, or finishes
    after writing the bundle of the three tokens the loop printed. *)
Lemma main_cases w :
  (exists e w1,
      main w = (Err e, w1) /\ files w1 = files w /\
      token_loop users [] (set_stdout w (stdout w ++ header_lines)%list) = (Err e, w1))
  \/
  (exists t_req t_app t_adm w1,
      fst (main w) = Ok tt /\
      files (snd (main w)) =
        Py.dict_set "test_tokens.json"
          (dumps_indent 0 (tokens_json (bundle t_req t_app t_adm))) (files w) /\
      stdout (snd (main w)) =
        (stdout w ++ header_lines
         ++ block "requester" (info_of "requester") t_req
         ++ block "approver" (info_of "approver") t_app
         ++ block "admin" (info_of "admin") t_adm
         ++ footer_lines t_req t_app t_adm)%list /\
      token_loop users [] (set_stdout w (stdout w ++ header_lines)%list)
        = (Ok (bundle t_req t_app t_adm), w1)).
Proof.
  unfold main; cbv [bind print write_file getitem ret raise].
  repeat match goal with
  | |- context [set_stdout (set_stdout ?w0 ?a) ?b] =>
      change (set_stdout (set_stdout w0 a) b) with (set_stdout w0 b)
  end.
  cbn [stdout set_stdout].
  rewrite <- !List.app_assoc.
  change ([_] ++ [_] ++ [_])%list with header_lines.
  pose proof (Io.token_loop_files users [] (set_stdout w (stdout w ++ header_lines)%list)) as Hf.
  unfold Io.same_files in Hf.
  destruct (token_loop users [] _) as [[toks | e] w1] eqn:E; simpl in Hf.
  - right.
    pose proof E as E'.
    apply token_loop_ok in E' as (ts & Hlen & Htoks & Hout & Hfiles).
    destruct ts as [| t1 [| t2 [| t3 [| ? ?]]]]; try discriminate Hlen.
    simpl in Htoks; subst toks.
    exists t1, t2, t3, w1; simpl.
    repeat split.
    + rewrite Hfiles; reflexivity.
    + rewrite Hout; simpl. repeat rewrite <- List.app_assoc; reflexivity.
  - left. exists e, w1; repeat split; exact Hf.
Qed.

End Run.

(* ------------------------------------------------------------------ *)
(** ** Dict facts *)

Lemma dict_get_set_same {A} k (x : A) d : Py.dict_get k (Py.dict_set k x d) = Some x.
Proof.
  induction d as [| [k' y] t IH]; simpl.
  - now rewrite String.eqb_refl.
  - destruct (String.eqb k k') eqn:E; simpl; rewrite ?E; auto.
Qed.

Module MainClaims.
Import Json Script Loop Run.
Local Open Scope string_scope.

(** C3: every run that completes builds and saves a token mapping whose
    keys are exactly the roles of the static table, requester, approver
    and admin, each once and in table order. *)
Theorem run_token_keys w :
  fst (main w) = Ok tt ->
  exists toks,
    map fst toks = map fst users /\
    map fst toks = ["requester"; "approver"; "admin"] /\
    Py.dict_get "test_tokens.json" (files (snd (main w)))
      = Some (dumps_indent 0 (tokens_json toks)).
Proof.
  intro Hok.
  destruct (main_cases w) as [(e & w1 & Hm & _) | (t1 & t2 & t3 & w1 & _ & Hf & _ & _)].
  - rewrite Hm in Hok; discriminate.
  - exists (bundle t1 t2 t3); repeat split.
    rewrite Hf; apply dict_get_set_same.
Qed.

(** C7: a run that raises, in particular one where generate_token fails
    for some role, ends without touching the file system. *)
Theorem main_failure_keeps_files w e w' :
  main w = (Err e, w') -> files w' = files w.
Proof.
  intro H.
  destruct (main_cases w) as [(e1 & w1 & Hm & Hf & _) | (t1 & t2 & t3 & w1 & Hok & _)].
  - rewrite Hm in H; inversion H; subst; exact Hf.
  - rewrite H in Hok; discriminate.
Qed.

(** C8: a run that completes leaves test_tokens.json holding exactly the
    indented JSON text of the new mapping, and the same text whatever the
    files were before the run. *)
Theorem main_overwrites_bundle w :
  fst (main w) = Ok tt ->
  exists t_req t_app t_adm,
    Py.dict_get "test_tokens.json" (files (snd (main w)))
      = Some (dumps_indent 0 (tokens_json (bundle t_req t_app t_adm))) /\
    forall fs,
      fst (main (set_files w fs)) = Ok tt /\
      Py.dict_get "test_tokens.json" (files (snd (main (set_files w fs))))
        = Some (dumps_indent 0 (tokens_json (bundle t_req t_app t_adm))).
Proof.
  intro Hok.
  destruct (main_cases w) as [(e & w1 & Hm & _) | (t1 & t2 & t3 & w1 & _ & Hf & _ & Hl)].
  { rewrite Hm in Hok; discriminate. }
  exists t1, t2, t3; split.
  - rewrite Hf; apply dict_get_set_same.
  - intro fs.
    pose proof (Blind.blind_token_loop users [] (set_stdout w (stdout w ++ header_lines)%list) fs)
      as Hb.
    rewrite Hl in Hb; cbn [fst snd] in Hb.
    change (set_files (set_stdout w (stdout w ++ header_lines)%list) fs)
      with (set_stdout (set_files w fs) (stdout (set_files w fs) ++ header_lines)%list) in Hb.
    destruct (main_cases (set_files w fs))
      as [(e & w2 & _ & _ & Hl2) | (u1 & u2 & u3 & w2 & Hok2 & Hf2 & _ & Hl2)].
    + rewrite Hb in Hl2; discriminate.
    + rewrite Hb in Hl2; inversion Hl2; subst.
      split; [exact Hok2 |].
      rewrite Hf2; apply dict_get_set_same.
Qed.

(** C10: in a run that completes, the token saved under each role is the
    one printed in that role's console block and the one in its export
    line. *)
Theorem main_channels_agree w :
  fst (main w) = Ok tt ->
  exists t_req t_app t_adm,
    Py.dict_get "test_tokens.json" (files (snd (main w)))
      = Some (dumps_indent 0 (tokens_json
                [("requester", t_req); ("approver", t_app); ("admin", t_adm)])) /\
    stdout (snd (main w)) =
      (stdout w ++
       ["GA Ticketing System - JWT Token Generator";
        "==================================================";
        "";
        "REQUESTER USER:";
        "  Name: John Requester";
        "  Email: john.requester@company.com";
        "  Role: requester";
        ("  Token: " ++ t_req)%string;
        "";
        "APPROVER USER:";
        "  Name: Jane Approver";
        "  Email: jane.approver@company.com";
        "  Role: approver";
        ("  Token: " ++ t_app)%string;
        "";
        "ADMIN USER:";
        "  Name: Admin User";
        "  Email: admin@company.com";
        "  Role: admin";
        ("  Token: " ++ t_adm)%string;
        "";
        "Tokens saved to: test_tokens.json";
        "";
        "Usage examples:";
        ("export REQUESTER_TOKEN=" ++ dq ++ t_req ++ dq)%string;
        ("export APPROVER_TOKEN=" ++ dq ++ t_app ++ dq)%string;
        ("export ADMIN_TOKEN=" ++ dq ++ t_adm ++ dq)%string])%list.
Proof.
  intro Hok.
  destruct (main_cases w) as [(e & w1 & Hm & _) | (t1 & t2 & t3 & w1 & _ & Hf & Ho & _)].
  { rewrite Hm in Hok; discriminate. }
  exists t1, t2, t3; split.
  - rewrite Hf; apply dict_get_set_same.
  - rewrite Ho; reflexivity.
Qed.

(** the run on [Demo.w_a] completes *)
Lemma main_a_ok : fst (main Demo.w_a) = Ok tt.
Proof. vm_compute; reflexivity. Qed.

Lemma run_token_keys_witness :
  fst (main Demo.w_a) = Ok tt /\
  exists toks,
    map fst toks = map fst users /\
    map fst toks = ["requester"; "approver"; "admin"] /\
    Py.dict_get "test_tokens.json" (files (snd (main Demo.w_a)))
      = Some (dumps_indent 0 (tokens_json toks)).
Proof. split; [exact main_a_ok | exact (run_token_keys _ main_a_ok)]. Defined.

(** the clock of [Demo.w_late] is one microsecond before datetime.max, so the
    first expiry time overflows; test_tokens.json was already there *)
Lemma main_failure_keeps_files_witness :
  main Demo.w_late
    = (Err (OverflowError "date value out of range"), snd (main Demo.w_late)) /\
  files (snd (main Demo.w_late)) = files Demo.w_late.
Proof.
  assert (H : main Demo.w_late
              = (Err (OverflowError "date value out of range"), snd (main Demo.w_late)))
    by (vm_compute; reflexivity).
  split; [exact H | exact (main_failure_keeps_files _ _ _ H)].
Defined.

Lemma main_overwrites_bundle_witness :
  fst (main Demo.w_a) = Ok tt /\
  exists t_req t_app t_adm,
    Py.dict_get "test_tokens.json" (files (snd (main Demo.w_a)))
      = Some (dumps_indent 0 (tokens_json (bundle t_req t_app t_adm))) /\
    forall fs,
      fst (main (set_files Demo.w_a fs)) = Ok tt /\
      Py.dict_get "test_tokens.json" (files (snd (main (set_files Demo.w_a fs))))
        = Some (dumps_indent 0 (tokens_json (bundle t_req t_app t_adm))).
Proof. split; [exact main_a_ok | exact (main_overwrites_bundle _ main_a_ok)]. Defined.

Lemma main_channels_agree_witness :
  fst (main Demo.w_a) = Ok tt /\
  exists t_req t_app t_adm,
    Py.dict_get "test_tokens.json" (files (snd (main Demo.w_a)))
      = Some (dumps_indent 0 (tokens_json
                [("requester", t_req); ("approver", t_app); ("admin", t_adm)])) /\
    stdout (snd (main Demo.w_a)) =
      (stdout Demo.w_a ++
       ["GA Ticketing System - JWT Token Generator";
        "==================================================";
        "";
        "REQUESTER USER:";
        "  Name: John Requester";
        "  Email: john.requester@company.com";
        "  Role: requester";
        ("  Token: " ++ t_req)%string;
        "";
        "APPROVER USER:";
        "  Name: Jane Approver";
        "  Email: jane.approver@company.com";
        "  Role: approver";
        ("  Token: " ++ t_app)%string;
        "";
        "ADMIN USER:";
        "  Name: Admin User";
        "  Email: admin@company.com";
        "  Role: admin";
        ("  Token: " ++ t_adm)%string;
        "";
        "Tokens saved to: test_tokens.json";
        "";
        "Usage examples:";
        ("export REQUESTER_TOKEN=" ++ dq ++ t_req ++ dq)%string;
        ("export APPROVER_TOKEN=" ++ dq ++ t_app ++ dq)%string;
        ("export ADMIN_TOKEN=" ++ dq ++ t_adm ++ dq)%string])%list.
Proof. split; [exact main_a_ok | exact (main_channels_agree _ main_a_ok)]. Defined.

End MainClaims.

(* ------------------------------------------------------------------ *)
(** ** Strings *)

Module Str.
Local Open Scope string_scope.

Lemma app_assoc (a b c : string) : (a ++ b) ++ c = a ++ (b ++ c).
Proof. induction a as [| x a IH]; simpl; [reflexivity | now rewrite IH]. Qed.

Lemma app_nil_r (a : string) : a ++ "" = a.
Proof. induction a as [| x a IH]; simpl; [reflexivity | now rewrite IH]. Qed.

Lemma length_app (a b : string) : String.length (a ++ b) = (String.length a + String.length b)%nat.
Proof. induction a as [| x a IH]; simpl; [reflexivity | now rewrite IH]. Qed.

Fixpoint no_dot (s : string) : Prop :=
  match s with
  | EmptyString => True
  | String c r => c <> "."%char /\ no_dot r
  end.

Lemma split_dot_no_dot s : no_dot s -> Py.split_dot s = [s].
Proof.
  induction s as [| c r IH]; simpl; [reflexivity |].
  intros [Hc Hr]; rewrite IH by exact Hr.
  destruct (Ascii.eqb_spec c "."%char); [contradiction | reflexivity].
Qed.

Lemma split_dot_app s r : no_dot s -> Py.split_dot (s ++ "." ++ r) = s :: Py.split_dot r.
Proof.
  induction s as [| c s IH]; simpl in *; [reflexivity |].
  intros [Hc Hs]; rewrite IH by exact Hs.
  destruct (Ascii.eqb_spec c "."%char); [contradiction | reflexivity].
Qed.

Lemma no_dot_app a b : no_dot a -> no_dot b -> no_dot (a ++ b).
Proof. induction a as [| c a IH]; simpl; tauto. Qed.

End Str.

(* ------------------------------------------------------------------ *)
(** ** base64url round trip *)

Module B64Facts.
Import B64.
Local Open Scope string_scope.

Lemma char6_index a b c d e f :
  exists n, index_of (char6 a b c d e f) alphabet 0 = Some n /\ bits6 n = [a; b; c; d; e; f].
Proof. destruct a, b, c, d, e, f; eexists; split; reflexivity. Qed.

Lemma char6_not_dot a b c d e f : char6 a b c d e f <> "."%char.
Proof. destruct a, b, c, d, e, f; discriminate. Qed.

Lemma enc_bits_no_dot bits : Str.no_dot (enc_bits bits).
Proof.
  induction bits as [bits IH] using (induction_ltof1 _ (@List.length bool)).
  unfold ltof in IH.
  destruct bits as [| a [| b [| c [| d [| e [| f rest]]]]]]; simpl;
    repeat split; try apply char6_not_dot.
  apply IH; simpl; lia.
Qed.

Lemma enc_bits_length bits : String.length (enc_bits bits) = ((List.length bits + 5) / 6)%nat.
Proof.
  induction bits as [bits IH] using (induction_ltof1 _ (@List.length bool)).
  unfold ltof in IH.
  destruct bits as [| a [| b [| c [| d [| e [| f rest]]]]]]; try reflexivity.
  simpl String.length; rewrite IH by (simpl; lia).
  simpl List.length.
  replace (S (S (S (S (S (S (List.length rest)))))) + 5)%nat
    with (1 * 6 + (List.length rest + 5))%nat by lia.
  rewrite Nat.div_add_l by lia; lia.
Qed.

Lemma dec_enc_bits bits :
  exists pad, (List.length pad < 6)%nat /\ Forall (eq false) pad /\
              dec_chars (enc_bits bits) = Some (bits ++ pad)%list.
Proof.
  induction bits as [bits IH] using (induction_ltof1 _ (@List.length bool)).
  unfold ltof in IH.
  destruct bits as [| a [| b [| c [| d [| e [| f rest]]]]]].
  - exists []; repeat constructor.
  - destruct (char6_index a false false false false false) as (n & Hn & Hb).
    exists [false; false; false; false; false];
      cbn [enc_bits dec_chars]; rewrite Hn, Hb.
    repeat constructor.
  - destruct (char6_index a b false false false false) as (n & Hn & Hb).
    exists [false; false; false; false];
      cbn [enc_bits dec_chars]; rewrite Hn, Hb.
    repeat constructor.
  - destruct (char6_index a b c false false false) as (n & Hn & Hb).
    exists [false; false; false];
      cbn [enc_bits dec_chars]; rewrite Hn, Hb.
    repeat constructor.
  - destruct (char6_index a b c d false false) as (n & Hn & Hb).
    exists [false; false];
      cbn [enc_bits dec_chars]; rewrite Hn, Hb.
    repeat constructor.
  - destruct (char6_index a b c d e false) as (n & Hn & Hb).
    exists [false];
      cbn [enc_bits dec_chars]; rewrite Hn, Hb.
    repeat constructor.
  - destruct (char6_index a b c d e f) as (n & Hn & Hb).
    destruct (IH rest) as (pad & Hl & Hp & Hd); [simpl; lia |].
    exists pad; repeat split; auto.
    cbn [enc_bits dec_chars]; rewrite Hn, Hd, Hb; reflexivity.
Qed.

Lemma bits_of_byte_length b : List.length (bits_of_byte b) = 8%nat.
Proof. unfold bits_of_byte; destruct (ascii_of_byte b); reflexivity. Qed.

Lemma flat_map_bits_length bs : List.length (flat_map bits_of_byte bs) = (8 * List.length bs)%nat.
Proof.
  induction bs as [| b bs IH]; simpl; [reflexivity |].
  rewrite List.length_app, bits_of_byte_length, IH; lia.
Qed.

Lemma bytes_of_bits_pad pad : (List.length pad < 8)%nat -> bytes_of_bits pad = [].
Proof.
  intro H; destruct pad as [| a [| b [| c [| d [| e [| f [| g [| h rest]]]]]]]];
    try reflexivity; simpl in H; lia.
Qed.

Lemma bytes_of_bits_app bs pad :
  (List.length pad < 8)%nat -> bytes_of_bits (flat_map bits_of_byte bs ++ pad)%list = bs.
Proof.
  intro Hpad; induction bs as [| b bs IH]; cbn [flat_map].
  - now apply bytes_of_bits_pad.
  - unfold bits_of_byte at 1.
    destruct (ascii_of_byte b) as [b0 b1 b2 b3 b4 b5 b6 b7] eqn:E.
    rewrite <- List.app_assoc; cbn [List.app bytes_of_bits].
    rewrite <- E, byte_of_ascii_of_byte, IH; reflexivity.
Qed.

Lemma enc_length_mod m : Nat.modulo ((8 * m + 5) / 6) 4 <> 1%nat.
Proof.
  pose proof (Nat.div_mod_eq (8 * m + 5) 6).
  pose proof (Nat.mod_upper_bound (8 * m + 5) 6 ltac:(lia)).
  pose proof (Nat.div_mod_eq ((8 * m + 5) / 6) 4).
  pose proof (Nat.mod_upper_bound ((8 * m + 5) / 6) 4 ltac:(lia)).
  lia.
Qed.

(** [base64url_decode] undoes [base64url_encode] *)
Lemma decode_encode bs : base64url_decode (base64url_encode bs) = Some bs.
Proof.
  unfold base64url_decode, base64url_encode.
  rewrite enc_bits_length, flat_map_bits_length.
  destruct (Nat.eqb_spec (Nat.modulo ((8 * List.length bs + 5) / 6) 4) 1) as [E | _].
  { exfalso; exact (enc_length_mod _ E). }
  destruct (dec_enc_bits (flat_map bits_of_byte bs)) as (pad & Hl & _ & Hd).
  rewrite Hd; simpl; rewrite bytes_of_bits_app by lia; reflexivity.
Qed.

Lemma encode_no_dot bs : Str.no_dot (base64url_encode bs).
Proof. apply enc_bits_no_dot. Qed.

End B64Facts.

(* ------------------------------------------------------------------ *)
(** ** json.loads undoes json.dumps *)

Module JsonFacts.
Import Json.
Local Open Scope string_scope.

Lemma parse_str_esc_char c r : parse_str (esc_char c ++ r) = cons_fst c (parse_str r).
Proof. destruct c as [[] [] [] [] [] [] [] []]; reflexivity. Qed.

Lemma parse_str_esc s rest : parse_str (esc s ++ dq ++ rest) = Some (s, rest).
Proof.
  induction s as [| c s IH].
  - reflexivity.
  - cbn [esc]. rewrite Str.app_assoc, parse_str_esc_char, IH; reflexivity.
Qed.

Fixpoint all_digits (s : string) : bool :=
  match s with EmptyString => true | String c r => is_digit c && all_digits r end.

Definition no_digit_first (s : string) : Prop :=
  match s with EmptyString => True | String c _ => is_digit c = false end.

Lemma string_of_uint_digits d : all_digits (NilEmpty.string_of_uint d) = true.
Proof. induction d; simpl; rewrite ?IHd; reflexivity. Qed.

Lemma str_N_digits n : all_digits (str_N n) = true.
Proof. apply string_of_uint_digits. Qed.

Lemma str_N_nonempty n : str_N n <> EmptyString.
Proof.
  unfold str_N; intro E.
  assert (H := NilEmpty.usu (N.to_uint n)); rewrite E in H; simpl in H.
  injection H as H.
  assert (H' := DecimalN.Unsigned.of_to n); rewrite <- H in H'; simpl in H'.
  subst n; discriminate.
Qed.

Lemma span_digits_app ds rest :
  all_digits ds = true -> no_digit_first rest -> span_digits (ds ++ rest) = (ds, rest).
Proof.
  induction ds as [| c ds IH]; simpl; intros Hd Hr.
  - destruct rest as [| c r]; simpl in *; [reflexivity | now rewrite Hr].
  - apply andb_prop in Hd as [Hc Hd]. rewrite Hc, IH; auto.
Qed.

Lemma parse_nat_str_N n rest :
  no_digit_first rest -> parse_nat (str_N n ++ rest) = Some (n, rest).
Proof.
  intro Hr; unfold parse_nat.
  rewrite span_digits_app by auto using str_N_digits.
  destruct (str_N n) eqn:E; [now apply str_N_nonempty in E |].
  rewrite <- E; unfold str_N; rewrite NilEmpty.usu, DecimalN.Unsigned.of_to.
  reflexivity.
Qed.

Lemma digit_not_minus c : is_digit c = true -> Ascii.eqb c "-" = false.
Proof. destruct c as [[] [] [] [] [] [] [] []]; try reflexivity; discriminate. Qed.

Lemma parse_int_str_int z rest :
  no_digit_first rest -> parse_int (str_int z ++ rest) = Some (z, rest).
Proof.
  intro Hr; unfold str_int; destruct (z <? 0)%Z eqn:Hz.
  - rewrite Str.app_assoc; simpl.
    rewrite parse_nat_str_N by exact Hr. f_equal; f_equal; lia.
  - assert (Hd := str_N_digits (Z.to_N z)).
    destruct (str_N (Z.to_N z)) as [| c s] eqn:E;
      [now apply str_N_nonempty in E |].
    simpl in Hd; apply andb_prop in Hd as [Hc _].
    simpl; rewrite digit_not_minus by exact Hc.
    change (String c (s ++ rest)) with (String c s ++ rest).
    rewrite <- E, parse_nat_str_N by exact Hr. f_equal; f_equal; lia.
Qed.

Fixpoint dumps_items (l : list jval) : string :=
  match l with
  | [] => ""
  | x :: t => dumps x ++ match t with [] => "" | _ => "," ++ dumps_items t end
  end.

Fixpoint dumps_members (kvs : list (string * jval)) : string :=
  match kvs with
  | [] => ""
  | (k, x) :: t =>
      quote k ++ ":" ++ dumps x ++ match t with [] => "" | _ => "," ++ dumps_members t end
  end.

Fixpoint jsize (v : jval) : nat :=
  match v with
  | JArr l =>
      S ((fix go (l : list jval) : nat :=
            match l with [] => O | x :: t => S (jsize x + go t) end) l)
  | JObj kvs =>
      S ((fix go (kvs : list (string * jval)) : nat :=
            match kvs with [] => O | (_, x) :: t => S (jsize x + go t) end) kvs)
  | _ => 1%nat
  end.

Fixpoint size_items (l : list jval) : nat :=
  match l with [] => O | x :: t => S (jsize x + size_items t) end.

Fixpoint size_members (kvs : list (string * jval)) : nat :=
  match kvs with [] => O | (_, x) :: t => S (jsize x + size_members t) end.

Section JvalInd.
Variable P : jval -> Prop.
Hypothesis HNull : P JNull.
Hypothesis HBool : forall b, P (JBool b).
Hypothesis HInt : forall z, P (JInt z).
Hypothesis HStr : forall s, P (JStr s).
Hypothesis HArr : forall l, Forall P l -> P (JArr l).
Hypothesis HObj : forall kvs, Forall (fun kv => P (snd kv)) kvs -> P (JObj kvs).

Fixpoint jval_ind' (v : jval) : P v :=
  match v with
  | JNull => HNull
  | JBool b => HBool b
  | JInt z => HInt z
  | JStr s => HStr s
  | JArr l =>
      HArr l ((fix go (l : list jval) : Forall P l :=
                 match l with
                 | [] => Forall_nil P
                 | x :: t => Forall_cons x (jval_ind' x) (go t)
                 end) l)
  | JObj kvs =>
      HObj kvs ((fix go (kvs : list (string * jval)) : Forall (fun kv => P (snd kv)) kvs :=
                   match kvs with
                   | [] => Forall_nil _
                   | (k, x) :: t => Forall_cons (P := fun kv => P (snd kv)) (k, x) (jval_ind' x) (go t)
                   end) kvs)
  end.
End JvalInd.

(** [json.dumps v], followed by anything not starting with a digit, reads back as [v] *)
Definition reads_back (v : jval) : Prop :=
  forall f rest, (jsize v <= f)%nat -> no_digit_first rest ->
  parse_value (S f) (dumps v ++ rest) = Some (v, rest).

Lemma dumps_JArr l : dumps (JArr l) = "[" ++ dumps_items l ++ "]".
Proof. reflexivity. Qed.

Lemma dumps_JObj kvs : dumps (JObj kvs) = "{" ++ dumps_members kvs ++ "}".
Proof. reflexivity. Qed.

Lemma jsize_JArr l : jsize (JArr l) = S (size_items l).
Proof. reflexivity. Qed.

Lemma jsize_JObj kvs : jsize (JObj kvs) = S (size_members kvs).
Proof. reflexivity. Qed.

Lemma jsize_pos v : (1 <= jsize v)%nat.
Proof. destruct v; simpl; lia. Qed.

Lemma str_int_head z :
  exists c r, str_int z = String c r /\ (c = "-"%char \/ is_digit c = true).
Proof.
  unfold str_int; destruct (z <? 0)%Z.
  - eexists _, _; split; [reflexivity | now left].
  - assert (Hd := str_N_digits (Z.to_N z)).
    destruct (str_N (Z.to_N z)) as [| c r] eqn:E; [now apply str_N_nonempty in E |].
    simpl in Hd; apply andb_prop in Hd as [Hc _].
    exists c, r; auto.
Qed.

Lemma digit_not_close c :
  is_digit c = true -> Ascii.eqb c "]" = false /\ Ascii.eqb c "}" = false.
Proof. destruct c as [[] [] [] [] [] [] [] []]; try discriminate; auto. Qed.

Lemma dumps_head v :
  exists c r, dumps v = String c r /\ Ascii.eqb c "]" = false /\ Ascii.eqb c "}" = false.
Proof.
  destruct v as [| [] | z | s | l | kvs]; try (eexists _, _; split; [reflexivity | auto]).
  simpl; destruct (str_int_head z) as (c & r & -> & [-> | Hc]).
  - eexists _, _; split; [reflexivity | auto].
  - exists c, r; split; [reflexivity | now apply digit_not_close].
Qed.

Lemma parse_value_int_head f c r :
  c = "-"%char \/ is_digit c = true ->
  parse_value (S f) (String c r) =
  match parse_int (String c r) with Some (z, r') => Some (JInt z, r') | None => None end.
Proof.
  intros [-> | Hc]; [reflexivity |].
  destruct c as [[] [] [] [] [] [] [] []]; try discriminate; reflexivity.
Qed.

Lemma parse_items_S g s :
  parse_items (S g) s =
  match parse_value g s with
  | Some (x, String "," r) =>
      match parse_items g r with Some (l, r') => Some (x :: l, r') | None => None end
  | Some (x, String "]" r) => Some ([x], r)
  | _ => None
  end.
Proof. reflexivity. Qed.

Lemma parse_items_dumps l :
  Forall reads_back l -> l <> [] ->
  forall g rest, (size_items l <= g)%nat -> no_digit_first rest ->
  parse_items (S g) (dumps_items l ++ "]" ++ rest) = Some (l, rest).
Proof.
  induction 1 as [| x t Hx HF IH]; intros Hne g rest Hs Hr; [congruence |].
  cbn [size_items] in Hs.
  destruct g as [| g]; [lia |].
  cbn [dumps_items]; rewrite Str.app_assoc, parse_items_S.
  destruct t as [| y t].
  - rewrite (Hx g ("" ++ "]" ++ rest)) by (reflexivity || lia). reflexivity.
  - replace (("," ++ dumps_items (y :: t)) ++ "]" ++ rest)
      with (String "," (dumps_items (y :: t) ++ "]" ++ rest)) by reflexivity.
    rewrite (Hx g) by (reflexivity || lia).
    cbv beta iota. rewrite IH; [reflexivity | discriminate | | exact Hr].
    assert (Hp := jsize_pos x). cbn [size_items] in Hs |- *. lia.
Qed.

Lemma parse_members_quote g r :
  parse_members (S g) (String "034"%char r) =
  match parse_str r with
  | Some (k, String ":" r1) =>
      match parse_value g r1 with
      | Some (x, String "," r2) =>
          match parse_members g r2 with
          | Some (l, r') => Some ((k, x) :: l, r')
          | None => None
          end
      | Some (x, String "}" r2) => Some ([(k, x)], r2)
      | _ => None
      end
  | _ => None
  end.
Proof. reflexivity. Qed.

Lemma parse_str_esc' s rest : parse_str (esc s ++ String "034"%char rest) = Some (s, rest).
Proof. exact (parse_str_esc s rest). Qed.

Lemma parse_members_dumps kvs :
  Forall (fun kv => reads_back (snd kv)) kvs -> kvs <> [] ->
  forall g rest, (size_members kvs <= g)%nat -> no_digit_first rest ->
  parse_members (S g) (dumps_members kvs ++ String "}" rest) = Some (kvs, rest).
Proof.
  induction 1 as [| [k x] t Hx HF IH]; intros Hne g rest Hs Hr; [congruence |].
  cbn [snd] in Hx; cbn [size_members] in Hs.
  destruct g as [| g]; [lia |].
  cbn [dumps_members]; unfold quote, dq; rewrite !Str.app_assoc; cbn [String.append].
  rewrite parse_members_quote, parse_str_esc'.
  destruct t as [| [k' y] t].
  - rewrite (Hx g) by (reflexivity || lia). reflexivity.
  - cbn [String.append].
    rewrite (Hx g) by (reflexivity || lia). cbv beta iota.
    rewrite IH; [reflexivity | discriminate | | exact Hr].
    assert (Hp := jsize_pos x). cbn [size_members] in Hs |- *. lia.
Qed.

Lemma dumps_items_head l :
  l <> [] -> exists c r, dumps_items l = String c r /\ Ascii.eqb c "]" = false.
Proof.
  destruct l as [| x t]; [congruence | intros _].
  destruct (dumps_head x) as (c & r & E & H1 & _).
  cbn [dumps_items]; rewrite E; eexists _, _; split; [reflexivity | exact H1].
Qed.

Lemma dumps_members_head kvs :
  kvs <> [] -> exists r, dumps_members kvs = String "034"%char r.
Proof.
  destruct kvs as [| [k x] t]; [congruence | intros _].
  eexists; reflexivity.
Qed.

Lemma parse_value_quote f r :
  parse_value (S f) (String "034"%char r) =
  match parse_str r with Some (x, r') => Some (JStr x, r') | None => None end.
Proof. reflexivity. Qed.

Lemma parse_value_bracket f c r :
  Ascii.eqb c "]" = false ->
  parse_value (S f) (String "[" (String c r)) =
  match parse_items f (String c r) with Some (l, r'') => Some (JArr l, r'') | None => None end.
Proof. intro H; cbn [parse_value]; rewrite H; reflexivity. Qed.

Lemma parse_value_brace f r :
  parse_value (S f) (String "{" (String "034"%char r)) =
  match parse_members f (String "034"%char r) with
  | Some (l, r'') => Some (JObj l, r'')
  | None => None
  end.
Proof. reflexivity. Qed.

Lemma parse_dumps v : reads_back v.
Proof.
  induction v as [| b | z | s | l Hl | kvs Hkvs] using jval_ind';
    intros f rest Hs Hr.
  - reflexivity.
  - destruct b; reflexivity.
  - destruct (str_int_head z) as (c & r & E & Hc).
    cbn [dumps]; rewrite E; cbn [String.append].
    rewrite parse_value_int_head by exact Hc.
    change (String c (r ++ rest)) with (String c r ++ rest).
    rewrite <- E, parse_int_str_int by exact Hr. reflexivity.
  - cbn [dumps]; unfold quote, dq; rewrite !Str.app_assoc; cbn [String.append].
    rewrite parse_value_quote, parse_str_esc'. reflexivity.
  - destruct l as [| x t]; [reflexivity |].
    rewrite jsize_JArr in Hs; destruct f as [| g]; [lia |].
    rewrite dumps_JArr, !Str.app_assoc.
    destruct (dumps_items_head (x :: t)) as (c & r & E & Hc); [discriminate |].
    rewrite E; cbn [String.append].
    rewrite parse_value_bracket by exact Hc.
    change (String c (r ++ String "]" rest)) with (String c r ++ "]" ++ rest).
    rewrite <- E, parse_items_dumps by (auto || discriminate || lia). reflexivity.
  - destruct kvs as [| [k x] t]; [reflexivity |].
    rewrite jsize_JObj in Hs; destruct f as [| g]; [lia |].
    rewrite dumps_JObj, !Str.app_assoc.
    destruct (dumps_members_head ((k, x) :: t)) as (r & E); [discriminate |].
    rewrite E; cbn [String.append].
    rewrite parse_value_brace.
    change (String "034"%char (r ++ String "}" rest)) with (String "034"%char r ++ String "}" rest).
    rewrite <- E, parse_members_dumps by (auto || discriminate || lia). reflexivity.
Qed.

Lemma str_int_length z : (1 <= String.length (str_int z))%nat.
Proof. destruct (str_int_head z) as (c & r & -> & _); simpl; lia. Qed.

Lemma jsize_length v : (jsize v <= String.length (dumps v))%nat.
Proof.
  induction v as [| b | z | s | l Hl | kvs Hkvs] using jval_ind'.
  - simpl; lia.
  - destruct b; simpl; lia.
  - apply str_int_length.
  - simpl; lia.
  - rewrite jsize_JArr, dumps_JArr, !Str.length_app; cbn [String.length].
    enough (size_items l <= S (String.length (dumps_items l)))%nat by lia.
    induction Hl as [| x t Hx HF IH]; [simpl; lia |].
    cbn [size_items dumps_items]; rewrite Str.length_app.
    destruct t as [| y t]; cbn [String.length size_items] in *; [lia |].
    rewrite Str.length_app in *; cbn [String.length] in *; lia.
  - rewrite jsize_JObj, dumps_JObj, !Str.length_app; cbn [String.length].
    enough (size_members kvs <= S (String.length (dumps_members kvs)))%nat by lia.
    induction Hkvs as [| [k x] t Hx HF IH]; [simpl; lia |].
    cbn [snd] in Hx; cbn [size_members dumps_members]; unfold quote, dq.
    rewrite !Str.length_app; cbn [String.length].
    destruct t as [| y t]; cbn [String.length size_members] in *; [lia |].
    rewrite Str.length_app in *; cbn [String.length] in *; lia.
Qed.

Lemma loads_dumps v : loads (dumps v) = Some v.
Proof.
  assert (H := parse_dumps v (String.length (dumps v)) "" (jsize_length v) I).
  rewrite Str.app_nil_r in H. unfold loads; rewrite H; reflexivity.
Qed.

End JsonFacts.

(* ------------------------------------------------------------------ *)
(** ** What an HS256 token carries *)

Module JwtFacts.
Import Json Jwt.
Local Open Scope string_scope.

Lemma encode_shape payload key claims tok :
  convert_times payload = Ok claims ->
  encode payload key "HS256" = Ok tok ->
  tok = B64.base64url_encode (list_byte_of_string (dumps (header "HS256"))) ++ "."
        ++ B64.base64url_encode (list_byte_of_string (dumps (JObj claims))) ++ "."
        ++ B64.base64url_encode
             (Sha256.hmac (list_byte_of_string key)
                (list_byte_of_string
                   (B64.base64url_encode (list_byte_of_string (dumps (header "HS256"))) ++ "."
                    ++ B64.base64url_encode (list_byte_of_string (dumps (JObj claims)))))).
Proof.
  intros Hc H; unfold encode in H; rewrite Hc in H; cbn [res_bind] in H.
  change (negb (String.eqb "HS256" "HS256")) with false in H.
  cbv beta iota zeta in H.
  apply (f_equal (fun r => match r with Ok a => a | Err _ => tok end)) in H.
  cbv beta iota in H. rewrite <- H, Str.app_assoc; reflexivity.
Qed.

Lemma split_three a b c :
  Str.no_dot a -> Str.no_dot b -> Str.no_dot c ->
  Py.split_dot (a ++ "." ++ b ++ "." ++ c) = [a; b; c].
Proof.
  intros Ha Hb Hc.
  rewrite Str.split_dot_app, Str.split_dot_app, Str.split_dot_no_dot by assumption.
  reflexivity.
Qed.

(** PyJWT's [encode], read back by an unverified [decode], gives the claims
    with their datetimes turned into seconds *)
Lemma decoded_encode payload key claims tok :
  convert_times payload = Ok claims ->
  encode payload key "HS256" = Ok tok ->
  decoded_payload tok = Some claims.
Proof.
  intros Hc H; rewrite (encode_shape payload key claims tok Hc H).
  unfold decoded_payload.
  rewrite split_three by apply B64Facts.encode_no_dot.
  rewrite B64Facts.decode_encode, string_of_list_byte_of_string, JsonFacts.loads_dumps.
  reflexivity.
Qed.

Lemma encode_segments payload key claims tok :
  convert_times payload = Ok claims ->
  encode payload key "HS256" = Ok tok ->
  exists h m s, Py.split_dot tok = [h; m; s] /\
    s = B64.base64url_encode
          (Sha256.hmac (list_byte_of_string key) (list_byte_of_string (h ++ "." ++ m))).
Proof.
  intros Hc H; rewrite (encode_shape payload key claims tok Hc H).
  eexists _, _, _; split; [| reflexivity].
  apply split_three; apply B64Facts.encode_no_dot.
Qed.

End JwtFacts.

(* ------------------------------------------------------------------ *)
(** ** A successful call of [generate_token] *)

Module Gen.
Import Json Jwt Script.
Local Open Scope string_scope.

(** the claims of the payload once PyJWT has turned its datetimes into
    seconds *)
Definition token_claims (uid eid nm em rl dp : jval) (jti now expires_at : Z)
  : list (string * jval) :=
  [("user_id", uid); ("employee_id", eid); ("name", nm); ("email", em);
   ("role", rl); ("department", dp); ("jti", JStr (Py.uuid_str jti));
   ("iss", JStr JWT_ISSUER); ("sub", uid);
   ("aud", JArr [JStr "ga-ticketing-client"]);
   ("exp", JInt (Py.timegm expires_at)); ("nbf", JInt (Py.timegm now));
   ("iat", JInt (Py.timegm now))].

Lemma dt_add_ok a b r :
  Py.dt_add a b = Ok r -> r = (a + b)%Z /\ (Py.datetime_min <= r <= Py.datetime_max)%Z.
Proof.
  unfold Py.dt_add; intro H.
  destruct ((a + b <? Py.datetime_min) || (Py.datetime_max <? a + b))%Z eqn:E;
    [discriminate |].
  injection H as <-. apply orb_false_iff in E as [E1 E2].
  apply Z.ltb_ge in E1; apply Z.ltb_ge in E2. lia.
Qed.

Lemma generate_token_ok info w tok w' :
  generate_token info w = (Ok tok, w') ->
  exists uid eid nm em rl dp jti expires_at,
    Py.dict_get "id" info = Some uid /\ Py.dict_get "employee_id" info = Some eid /\
    Py.dict_get "name" info = Some nm /\ Py.dict_get "email" info = Some em /\
    Py.dict_get "role" info = Some rl /\ Py.dict_get "department" info = Some dp /\
    Py.uuid_of_bytes (urandom_at w (draws w)) = Ok jti /\
    Py.dt_add (now_at w (ticks w)) (Py.timedelta_hours 24) = Ok expires_at /\
    encode
      [("user_id", PyJ uid); ("employee_id", PyJ eid); ("name", PyJ nm);
       ("email", PyJ em); ("role", PyJ rl); ("department", PyJ dp);
       ("jti", PyJ (JStr (Py.uuid_str jti))); ("iss", PyJ (JStr JWT_ISSUER));
       ("sub", PyJ uid); ("aud", PyJ (JArr [JStr "ga-ticketing-client"]));
       ("exp", PyDatetime expires_at); ("nbf", PyDatetime (now_at w (ticks w)));
       ("iat", PyDatetime (now_at w (ticks w)))] JWT_SECRET ALGORITHM = Ok tok /\
    w' = set_draws (set_ticks w (S (ticks w))) (S (draws w)).
Proof.
  intro H; unfold generate_token in H.
  cbv [bind utcnow lift getitem ret raise uuid4 set_ticks set_draws] in H; cbn [now_at ticks urandom_at draws] in H.
  destruct (Py.dt_add _ _) as [e |] eqn:E0; [| discriminate H].
  destruct (Py.dict_get "id" info) as [uid |] eqn:E1; [| discriminate H].
  destruct (Py.dict_get "employee_id" info) as [eid |] eqn:E2; [| discriminate H].
  destruct (Py.dict_get "name" info) as [nm |] eqn:E3; [| discriminate H].
  destruct (Py.dict_get "email" info) as [em |] eqn:E4; [| discriminate H].
  destruct (Py.dict_get "role" info) as [rl |] eqn:E5; [| discriminate H].
  destruct (Py.dict_get "department" info) as [dp |] eqn:E6; [| discriminate H].
  destruct (Py.uuid_of_bytes _) as [u |] eqn:E7; [| discriminate H].
  assert (Ht := f_equal fst H); assert (Hw := f_equal snd H); cbn [fst snd] in Ht, Hw.
  exists uid, eid, nm, em, rl, dp, u, e.
  repeat split; try assumption. rewrite <- Hw; reflexivity.
Qed.

Lemma generate_token_claims info w tok w' :
  generate_token info w = (Ok tok, w') ->
  exists uid eid nm em rl dp jti expires_at,
    Py.dict_get "id" info = Some uid /\ Py.dict_get "employee_id" info = Some eid /\
    Py.dict_get "name" info = Some nm /\ Py.dict_get "email" info = Some em /\
    Py.dict_get "role" info = Some rl /\ Py.dict_get "department" info = Some dp /\
    Py.uuid_of_bytes (urandom_at w (draws w)) = Ok jti /\
    expires_at = (now_at w (ticks w) + Py.timedelta_hours 24)%Z /\
    decoded_payload tok =
      Some (token_claims uid eid nm em rl dp jti (now_at w (ticks w)) expires_at) /\
    w' = set_draws (set_ticks w (S (ticks w))) (S (draws w)).
Proof.
  intro H.
  destruct (generate_token_ok info w tok w' H)
    as (uid & eid & nm & em & rl & dp & u & e & E1 & E2 & E3 & E4 & E5 & E6 & E7 & E0 & Henc & Hw).
  exists uid, eid, nm, em, rl, dp, u, e.
  repeat split; try assumption.
  - apply dt_add_ok in E0; tauto.
  - refine (JwtFacts.decoded_encode _ _ _ _ _ Henc); reflexivity.
Qed.

End Gen.

(* ------------------------------------------------------------------ *)
(** ** str(uuid4()) tells UUIDs apart *)

Module UuidFacts.
Local Open Scope string_scope.

Fixpoint undash (s : string) : string :=
  match s with
  | EmptyString => EmptyString
  | String c r => if Ascii.eqb c "-" then undash r else String c (undash r)
  end.

Lemma Z_of_byte_bound b : (0 <= Sha256.Z_of_byte b < 256)%Z.
Proof. destruct b; unfold Sha256.Z_of_byte; simpl; lia. Qed.

Lemma fold_bytes_bound bs acc :
  (0 <= acc)%Z ->
  (0 <= fold_left (fun acc b => acc * 256 + Sha256.Z_of_byte b)%Z bs acc
     < (acc + 1) * 256 ^ Z.of_nat (List.length bs))%Z.
Proof.
  revert acc; induction bs as [| b bs IH]; intros acc Hacc; cbn [fold_left List.length].
  - simpl; lia.
  - assert (Hb := Z_of_byte_bound b).
    destruct (IH (acc * 256 + Sha256.Z_of_byte b)%Z) as [H1 H2]; [lia |].
    rewrite Nat2Z.inj_succ, Z.pow_succ_r by lia.
    assert (0 < 256 ^ Z.of_nat (List.length bs))%Z by (apply Z.pow_pos_nonneg; lia).
    split; [lia | nia].
Qed.

Lemma high_bits_false x i : (0 <= x < 2 ^ 128)%Z -> (128 <= i)%Z -> Z.testbit x i = false.
Proof.
  intros Hx Hi. rewrite Z.testbit_odd, Z.shiftr_div_pow2 by lia.
  rewrite Z.div_small; [reflexivity |].
  assert (2 ^ 128 <= 2 ^ i)%Z by (apply Z.pow_le_mono_r; lia). lia.
Qed.

Lemma uuid_mask_bound n :
  (0 <= n < 2 ^ 128)%Z ->
  (0 <= Z.lor (Z.land (Z.lor (Z.land n (Z.lnot (Z.shiftl 0xc000 48))) (Z.shiftl 0x8000 48))
                      (Z.lnot (Z.shiftl 0xf000 64))) (Z.shiftl 4 76) < 2 ^ 128)%Z.
Proof.
  intro Hn.
  assert (B1 : (0 <= Z.shiftl 0x8000 48 < 2 ^ 128)%Z) by (split; vm_compute; congruence).
  assert (B2 : (0 <= Z.shiftl 4 76 < 2 ^ 128)%Z) by (split; vm_compute; congruence).
  assert (Hu : (0 <= Z.lor (Z.land (Z.lor (Z.land n (Z.lnot (Z.shiftl 0xc000 48)))
                 (Z.shiftl 0x8000 48)) (Z.lnot (Z.shiftl 0xf000 64))) (Z.shiftl 4 76))%Z).
  { apply Z.lor_nonneg; split; [| lia].
    apply Z.land_nonneg; left. apply Z.lor_nonneg; split; [| lia].
    apply Z.land_nonneg; left; lia. }
  match goal with |- (0 <= ?u < _)%Z =>
    enough (u mod 2 ^ 128 = u)%Z as <- by (apply Z.mod_pos_bound; lia) end.
  apply Z.bits_inj'; intros i Hi.
  destruct (Z.lt_ge_cases i 128).
  - apply Z.mod_pow2_bits_low; lia.
  - rewrite Z.mod_pow2_bits_high by lia. symmetry.
    rewrite !Z.lor_spec, !Z.land_spec, !Z.lor_spec, !Z.land_spec.
    rewrite (high_bits_false n), (high_bits_false (Z.shiftl 0x8000 48)),
      (high_bits_false (Z.shiftl 4 76)) by assumption.
    reflexivity.
Qed.

Lemma uuid_of_bytes_bound bs u : Py.uuid_of_bytes bs = Ok u -> (0 <= u < 2 ^ 128)%Z.
Proof.
  unfold Py.uuid_of_bytes; intro H.
  destruct (negb (Nat.eqb (List.length bs) 16)) eqn:E; [discriminate |].
  injection H as <-. apply negb_false_iff, Nat.eqb_eq in E.
  apply uuid_mask_bound.
  assert (Hn := fold_bytes_bound bs 0 (Z.le_refl 0)).
  unfold Py.from_bytes_be. rewrite E in Hn. exact Hn.
Qed.

Lemma hex_digits_length k n : String.length (Py.hex_digits k n) = k.
Proof.
  revert n; induction k as [| k IH]; intro n; [reflexivity |].
  cbn [Py.hex_digits]; rewrite Str.length_app, IH; simpl; lia.
Qed.

Lemma hex_digit_inj a b : (a < 16)%nat -> (b < 16)%nat -> Json.hex_digit a = Json.hex_digit b -> a = b.
Proof.
  intros Ha Hb.
  do 16 (destruct a as [| a]; [do 16 (destruct b as [| b]; [try reflexivity; discriminate |]); lia |]).
  lia.
Qed.

Lemma hex_digit_not_dash n : Ascii.eqb (Json.hex_digit n) "-" = false.
Proof. do 16 (destruct n as [| n]; [reflexivity |]). reflexivity. Qed.

Lemma app_inj_len (a b s t : string) :
  String.length a = String.length b -> a ++ s = b ++ t -> a = b /\ s = t.
Proof.
  revert b; induction a as [| c a IH]; intros [| c' b] Hl H; try discriminate Hl.
  - split; [reflexivity | exact H].
  - simpl in H, Hl; injection H as -> H; injection Hl as Hl.
    destruct (IH b Hl H) as [-> ->]; split; reflexivity.
Qed.

Lemma hex_digits_inj k a b :
  Py.hex_digits k a = Py.hex_digits k b -> (a mod 16 ^ Z.of_nat k = b mod 16 ^ Z.of_nat k)%Z.
Proof.
  revert a b; induction k as [| k IH]; intros a b H.
  - rewrite !Z.mod_1_r; reflexivity.
  - cbn [Py.hex_digits] in H.
    apply app_inj_len in H as [H1 H2]; [| rewrite !hex_digits_length; reflexivity].
    injection H2 as H2. apply IH in H1.
    assert (Ha := Z.mod_pos_bound a 16 ltac:(lia)).
    assert (Hb := Z.mod_pos_bound b 16 ltac:(lia)).
    apply hex_digit_inj in H2; [| lia | lia]. apply Z2Nat.inj in H2; [| lia | lia].
    rewrite Nat2Z.inj_succ, Z.pow_succ_r, !Z.rem_mul_r by lia.
    rewrite H1, H2; reflexivity.
Qed.

Fixpoint no_dash (s : string) : bool :=
  match s with
  | EmptyString => true
  | String c r => negb (Ascii.eqb c "-") && no_dash r
  end.

Lemma no_dash_app a b : no_dash a = true -> no_dash b = true -> no_dash (a ++ b) = true.
Proof. induction a as [| c a IH]; simpl; [auto |]. intros H Hb; apply andb_prop in H as [H1 H2]; now rewrite H1, IH. Qed.

Lemma hex_digits_no_dash k n : no_dash (Py.hex_digits k n) = true.
Proof.
  revert n; induction k as [| k IH]; intro n; [reflexivity |].
  cbn [Py.hex_digits]; apply no_dash_app; [apply IH |].
  simpl; rewrite hex_digit_not_dash; reflexivity.
Qed.

Lemma undash_keep c r : Ascii.eqb c "-" = false -> undash (String c r) = String c (undash r).
Proof. intro H; simpl; rewrite H; reflexivity. Qed.

Lemma undash_drop r : undash (String "-" r) = undash r.
Proof. reflexivity. Qed.

Lemma undash_groups h :
  String.length h = 32%nat -> no_dash h = true ->
  undash (substring 0 8 h ++ "-" ++ substring 8 4 h ++ "-" ++ substring 12 4 h
          ++ "-" ++ substring 16 4 h ++ "-" ++ substring 20 12 h) = h.
Proof.
  intros Hl Hd.
  do 32 (destruct h as [| ? h]; [discriminate Hl |]).
  destruct h; [| discriminate Hl].
  cbn [no_dash] in Hd.
  repeat match goal with
         | H : (negb _ && _) = true |- _ =>
             let Ha := fresh "Ha" in apply andb_prop in H as [Ha H]; apply negb_true_iff in Ha
         end.
  cbv [substring String.append].
  repeat first [ rewrite undash_drop | rewrite undash_keep by assumption ].
  reflexivity.
Qed.

Lemma undash_uuid_str u : undash (Py.uuid_str u) = Py.hex_digits 32 u.
Proof.
  unfold Py.uuid_str; cbv zeta.
  apply undash_groups; [apply hex_digits_length | apply hex_digits_no_dash].
Qed.

(** [str(UUID(int=u))] differs for different 128-bit values *)
Lemma uuid_str_inj u v :
  (0 <= u < 2 ^ 128)%Z -> (0 <= v < 2 ^ 128)%Z -> Py.uuid_str u = Py.uuid_str v -> u = v.
Proof.
  intros Hu Hv H.
  apply (f_equal undash) in H; rewrite !undash_uuid_str in H.
  apply hex_digits_inj in H.
  change (16 ^ Z.of_nat 32)%Z with (2 ^ 128)%Z in H.
  rewrite !Z.mod_small in H by lia. exact H.
Qed.

End UuidFacts.

(* ------------------------------------------------------------------ *)
(** ** When [generate_token] succeeds *)

Module GenSpec.
Import Json Jwt Script Gen.
Local Open Scope string_scope.

Lemma dt_add_in_range a b :
  (Py.datetime_min <= a + b <= Py.datetime_max)%Z -> Py.dt_add a b = Ok (a + b)%Z.
Proof.
  intro H; unfold Py.dt_add.
  replace ((a + b <? Py.datetime_min) || (Py.datetime_max <? a + b))%Z with false;
    [reflexivity |].
  symmetry; apply orb_false_iff; split; apply Z.ltb_ge; lia.
Qed.

Lemma uuid_of_bytes_16 bs : List.length bs = 16%nat -> exists u, Py.uuid_of_bytes bs = Ok u.
Proof. intro H; unfold Py.uuid_of_bytes; rewrite H; eexists; reflexivity. Qed.

Lemma encode_hs256_ok payload key claims :
  convert_times payload = Ok claims -> exists tok, encode payload key "HS256" = Ok tok.
Proof.
  intro H; unfold encode; rewrite H; cbn [res_bind].
  change (negb (String.eqb "HS256" "HS256")) with false.
  eexists; cbv beta iota zeta; reflexivity.
Qed.

(** the clock reading lies in the datetime range with a day to spare, and
    os.urandom(16) gives 16 bytes *)
Definition clock_ok (w : world) : Prop :=
  (Py.datetime_min <= now_at w (ticks w))%Z /\
  (now_at w (ticks w) + Py.timedelta_hours 24 <= Py.datetime_max)%Z.

Definition draw_ok (w : world) : Prop := List.length (urandom_at w (draws w)) = 16%nat.

Lemma generate_token_spec info w uid eid nm em rl dp :
  Py.dict_get "id" info = Some uid -> Py.dict_get "employee_id" info = Some eid ->
  Py.dict_get "name" info = Some nm -> Py.dict_get "email" info = Some em ->
  Py.dict_get "role" info = Some rl -> Py.dict_get "department" info = Some dp ->
  clock_ok w -> draw_ok w ->
  exists tok w' jti,
    generate_token info w = (Ok tok, w') /\
    Py.uuid_of_bytes (urandom_at w (draws w)) = Ok jti /\
    (exists h m s, Py.split_dot tok = [h; m; s] /\
       s = B64.base64url_encode
             (Sha256.hmac (list_byte_of_string JWT_SECRET) (list_byte_of_string (h ++ "." ++ m)))) /\
    decoded_payload tok =
      Some (token_claims uid eid nm em rl dp jti (now_at w (ticks w))
              (now_at w (ticks w) + Py.timedelta_hours 24)).
Proof.
  intros E1 E2 E3 E4 E5 E6 [Hlo Hhi] Hd.
  destruct (uuid_of_bytes_16 _ Hd) as [u Hu].
  assert (Ht : exists tok, encode
      [("user_id", PyJ uid); ("employee_id", PyJ eid); ("name", PyJ nm);
       ("email", PyJ em); ("role", PyJ rl); ("department", PyJ dp);
       ("jti", PyJ (JStr (Py.uuid_str u))); ("iss", PyJ (JStr JWT_ISSUER));
       ("sub", PyJ uid); ("aud", PyJ (JArr [JStr "ga-ticketing-client"]));
       ("exp", PyDatetime (now_at w (ticks w) + Py.timedelta_hours 24)%Z);
       ("nbf", PyDatetime (now_at w (ticks w)));
       ("iat", PyDatetime (now_at w (ticks w)))] JWT_SECRET "HS256" = Ok tok)
    by (eapply encode_hs256_ok; reflexivity).
  destruct Ht as [tok Htok].
  assert (Hg : generate_token info w =
    (Ok tok, set_draws (set_ticks w (S (ticks w))) (S (draws w)))).
  { unfold generate_token.
    cbv [bind utcnow lift getitem ret raise uuid4 set_ticks set_draws];
      cbn [now_at ticks urandom_at draws].
    assert (Hp : (0 < Py.timedelta_hours 24)%Z) by (vm_compute; reflexivity).
    rewrite dt_add_in_range by lia.
    rewrite E1, E2, E3, E4, E5, E6.
    cbn [now_at ticks urandom_at draws files stdout stderr]; rewrite Hu.
    unfold ALGORITHM; rewrite Htok; reflexivity. }
  exists tok, (set_draws (set_ticks w (S (ticks w))) (S (draws w))), u.
  split; [exact Hg |]; split; [exact Hu |]; split.
  - refine (JwtFacts.encode_segments _ _ _ _ _ Htok); reflexivity.
  - refine (JwtFacts.decoded_encode _ _ _ _ _ Htok); reflexivity.
Qed.

(** the result depends on the world only through the clock reading and
    the random draw *)
Lemma generate_token_det info w1 w2 :
  now_at w1 (ticks w1) = now_at w2 (ticks w2) ->
  urandom_at w1 (draws w1) = urandom_at w2 (draws w2) ->
  fst (generate_token info w1) = fst (generate_token info w2).
Proof.
  intros Hn Hr; unfold generate_token.
  cbv [bind utcnow lift getitem ret raise uuid4 set_ticks set_draws].
  cbn [now_at ticks urandom_at draws files stdout stderr].
  rewrite Hn.
  destruct (Py.dt_add _ _); [| reflexivity].
  destruct (Py.dict_get "id" info); [| reflexivity].
  destruct (Py.dict_get "employee_id" info); [| reflexivity].
  destruct (Py.dict_get "name" info); [| reflexivity].
  destruct (Py.dict_get "email" info); [| reflexivity].
  destruct (Py.dict_get "role" info); [| reflexivity].
  destruct (Py.dict_get "department" info); [| reflexivity].
  cbn [now_at ticks urandom_at draws files stdout stderr]; rewrite Hr.
  destruct (Py.uuid_of_bytes _); reflexivity.
Qed.



(** every call reads the clock once; it draws once, or not at all when it
    raises before the uuid4() call *)
Lemma generate_token_state info w :
  snd (generate_token info w) = set_ticks w (S (ticks w)) \/
  snd (generate_token info w) = set_draws (set_ticks w (S (ticks w))) (S (draws w)).
Proof.
  unfold generate_token.
  cbv [bind utcnow lift getitem ret raise uuid4 set_ticks set_draws].
  cbn [now_at ticks urandom_at draws files stdout stderr].
  destruct (Py.dt_add _ _); [| left; reflexivity].
  destruct (Py.dict_get "id" info); [| left; reflexivity].
  destruct (Py.dict_get "employee_id" info); [| left; reflexivity].
  destruct (Py.dict_get "name" info); [| left; reflexivity].
  destruct (Py.dict_get "email" info); [| left; reflexivity].
  destruct (Py.dict_get "role" info); [| left; reflexivity].
  destruct (Py.dict_get "department" info); [| left; reflexivity].
  cbn [now_at ticks urandom_at draws files stdout stderr]; right.
  destruct (Py.uuid_of_bytes _); [| reflexivity].
  destruct (Jwt.encode _ _ _); reflexivity.
Qed.

(** two successful calls whose uuid4() values differ return different
    tokens: their jti claims differ *)
Lemma generate_token_uuid_distinct info1 info2 w1 w2 tok1 tok2 w1' w2' :
  generate_token info1 w1 = (Ok tok1, w1') ->
  generate_token info2 w2 = (Ok tok2, w2') ->
  Py.uuid_of_bytes (urandom_at w1 (draws w1)) <> Py.uuid_of_bytes (urandom_at w2 (draws w2)) ->
  tok1 <> tok2.
Proof.
  intros H1 H2 Hne <-.
  destruct (generate_token_claims info1 w1 tok1 w1' H1)
    as (? & ? & ? & ? & ? & ? & u1 & ? & _ & _ & _ & _ & _ & _ & Hu1 & _ & Hd1 & _).
  destruct (generate_token_claims info2 w2 tok1 w2' H2)
    as (? & ? & ? & ? & ? & ? & u2 & ? & _ & _ & _ & _ & _ & _ & Hu2 & _ & Hd2 & _).
  rewrite Hd1 in Hd2.
  apply (f_equal (fun o => match o with Some kvs => get_key "jti" kvs | None => None end)) in Hd2.
  change (Some (JStr (Py.uuid_str u1)) = Some (JStr (Py.uuid_str u2))) in Hd2.
  assert (Hj : Py.uuid_str u1 = Py.uuid_str u2) by congruence.
  apply UuidFacts.uuid_str_inj in Hj;
    [| exact (UuidFacts.uuid_of_bytes_bound _ _ Hu1) | exact (UuidFacts.uuid_of_bytes_bound _ _ Hu2)].
  apply Hne; rewrite Hu1, Hu2, Hj; reflexivity.
Qed.

End GenSpec.


(* ------------------------------------------------------------------ *)
(** ** The claims on [generate_token] *)

Module TokenClaims.
Import Json Jwt Script Gen GenSpec.
Local Open Scope string_scope.

(** C1: for every token generate_token returns, the decoded claims hold
    nbf = iat = the clock reading the call takes (once, at its start), in
    whole seconds, and exp = iat + 86400; so nbf <= iat <= exp. *)
Theorem token_times info w tok w' :
  generate_token info w = (Ok tok, w') ->
  exists kvs nbf iat exp,
    decoded_payload tok = Some kvs /\
    get_key "nbf" kvs = Some (JInt nbf) /\
    get_key "iat" kvs = Some (JInt iat) /\
    get_key "exp" kvs = Some (JInt exp) /\
    nbf = iat /\ iat = Py.timegm (now_at w (ticks w)) /\
    (nbf <= iat <= exp)%Z /\ (exp - iat = 86400)%Z /\
    ticks w' = S (ticks w).
Proof.
  intro H.
  destruct (generate_token_claims info w tok w' H)
    as (uid & eid & nm & em & rl & dp & u & e & _ & _ & _ & _ & _ & _ & _ & He & Hd & Hw).
  set (t := now_at w (ticks w)) in *.
  exists (token_claims uid eid nm em rl dp u t e), (Py.timegm t), (Py.timegm t), (Py.timegm e).
  assert (Hx : (Py.timegm e = Py.timegm t + 86400)%Z).
  { subst e; unfold Py.timegm, Py.timedelta_hours.
    replace (24 * 3600 * 1000000)%Z with (86400 * 1000000)%Z by reflexivity.
    apply Z.div_add; lia. }
  repeat split; try assumption; try lia.
  subst w'; reflexivity.
Qed.

(** C2: for each role of the static table, on a clock inside the datetime
    range and a 16-byte random draw, generate_token returns a token with
    three dot-separated segments, the third the HS256 signature of the
    first two; its decoded claims hold sub = the profile's id, role = the
    profile's role, aud = ["ga-ticketing-client"] and
    iss = "ga-ticketing-system"; for admin, sub = "adm-001" and
    role = "admin". *)
Theorem role_tokens role info w :
  In (role, info) users -> clock_ok w -> draw_ok w ->
  exists tok w',
    generate_token info w = (Ok tok, w') /\
    (exists h m s, Py.split_dot tok = [h; m; s] /\
       s = B64.base64url_encode
             (Sha256.hmac (list_byte_of_string JWT_SECRET) (list_byte_of_string (h ++ "." ++ m)))) /\
    exists kvs,
      decoded_payload tok = Some kvs /\
      get_key "sub" kvs = Py.dict_get "id" info /\
      get_key "role" kvs = Py.dict_get "role" info /\
      get_key "aud" kvs = Some (JArr [JStr "ga-ticketing-client"]) /\
      get_key "iss" kvs = Some (JStr "ga-ticketing-system") /\
      (role = "admin" ->
       get_key "sub" kvs = Some (JStr "adm-001") /\ get_key "role" kvs = Some (JStr "admin")).
Proof.
  intros Hin Hc Hd.
  assert (Hk : exists uid eid nm em rl dp,
    Py.dict_get "id" info = Some uid /\ Py.dict_get "employee_id" info = Some eid /\
    Py.dict_get "name" info = Some nm /\ Py.dict_get "email" info = Some em /\
    Py.dict_get "role" info = Some rl /\ Py.dict_get "department" info = Some dp /\
    (role = "admin" -> uid = JStr "adm-001" /\ rl = JStr "admin")).
  { simpl in Hin; destruct Hin as [E | [E | [E | []]]]; injection E as <- <-;
      do 6 eexists; repeat split; try reflexivity; discriminate. }
  destruct Hk as (uid & eid & nm & em & rl & dp & E1 & E2 & E3 & E4 & E5 & E6 & Ha).
  destruct (generate_token_spec info w uid eid nm em rl dp E1 E2 E3 E4 E5 E6 Hc Hd)
    as (tok & w' & u & Hg & _ & Hs & Hp).
  exists tok, w'; split; [exact Hg |]; split; [exact Hs |].
  eexists; split; [exact Hp |].
  rewrite E1, E5.
  do 4 (split; [reflexivity |]).
  intro Hr; destruct (Ha Hr) as [-> ->]; split; reflexivity.
Qed.



(** C6 (amended): generate_token writes no file and prints nothing; every
    call reads the clock exactly once and draws random bytes at most once,
    and a successful call draws exactly once; its result is determined by
    the profile, the clock reading and the random draw. It is not a
    function of the profile and the time alone: the jti claim comes from
    the random draw, and two successful calls whose uuid4() values differ
    return different tokens. *)
Theorem generate_token_effects :
  (forall info w, Io.same_io w (snd (generate_token info w))) /\
  (forall info w tok w',
     generate_token info w = (Ok tok, w') ->
     w' = set_draws (set_ticks w (S (ticks w))) (S (draws w))) /\
  (forall info w1 w2,
     now_at w1 (ticks w1) = now_at w2 (ticks w2) ->
     urandom_at w1 (draws w1) = urandom_at w2 (draws w2) ->
     fst (generate_token info w1) = fst (generate_token info w2)) /\
  (forall info w,
     snd (generate_token info w) = set_ticks w (S (ticks w)) \/
     snd (generate_token info w) = set_draws (set_ticks w (S (ticks w))) (S (draws w))) /\
  (forall info1 info2 w1 w2 tok1 tok2 w1' w2',
     generate_token info1 w1 = (Ok tok1, w1') ->
     generate_token info2 w2 = (Ok tok2, w2') ->
     Py.uuid_of_bytes (urandom_at w1 (draws w1)) <> Py.uuid_of_bytes (urandom_at w2 (draws w2)) ->
     tok1 <> tok2).
Proof.
  split; [| split; [| split; [| split]]].
  - intros info w; apply Io.generate_token_io.
  - intros info w tok w' H.
    destruct (generate_token_ok info w tok w' H)
      as (uid & eid & nm & em & rl & dp & u & e & _ & _ & _ & _ & _ & _ & _ & _ & _ & Hs).
    exact Hs.
  - exact generate_token_det.
  - exact generate_token_state.
  - exact generate_token_uuid_distinct.
Qed.

(** C6, counterexample: the admin profile at the same clock reading gives
    two different tokens for two different random draws. *)
Lemma same_time_other_token :
  now_at Demo.w_a (ticks Demo.w_a) = now_at Demo.w_b (ticks Demo.w_b) /\
  fst (generate_token Demo.admin_info Demo.w_a) <> fst (generate_token Demo.admin_info Demo.w_b).
Proof. split; [reflexivity |]. vm_compute; congruence. Qed.

(** C9: two successful calls whose uuid4() values differ carry different
    jti claims. *)
Theorem jti_unique info1 info2 w1 w2 tok1 tok2 w1' w2' :
  generate_token info1 w1 = (Ok tok1, w1') ->
  generate_token info2 w2 = (Ok tok2, w2') ->
  Py.uuid_of_bytes (urandom_at w1 (draws w1)) <> Py.uuid_of_bytes (urandom_at w2 (draws w2)) ->
  exists kvs1 kvs2 j1 j2,
    decoded_payload tok1 = Some kvs1 /\ decoded_payload tok2 = Some kvs2 /\
    get_key "jti" kvs1 = Some (JStr j1) /\ get_key "jti" kvs2 = Some (JStr j2) /\
    j1 <> j2.
Proof.
  intros H1 H2 Hne.
  destruct (generate_token_claims info1 w1 tok1 w1' H1)
    as (uid & eid & nm & em & rl & dp & u1 & e1 & _ & _ & _ & _ & _ & _ & Hu1 & _ & Hd1 & _).
  destruct (generate_token_claims info2 w2 tok2 w2' H2)
    as (uid' & eid' & nm' & em' & rl' & dp' & u2 & e2 & _ & _ & _ & _ & _ & _ & Hu2 & _ & Hd2 & _).
  do 4 eexists; split; [exact Hd1 |]; split; [exact Hd2 |].
  split; [reflexivity |]; split; [reflexivity |].
  intro Heq. apply UuidFacts.uuid_str_inj in Heq;
    [| exact (UuidFacts.uuid_of_bytes_bound _ _ Hu1) | exact (UuidFacts.uuid_of_bytes_bound _ _ Hu2)].
  apply Hne; rewrite Hu1, Hu2, Heq; reflexivity.
Qed.

(** the admin token of [Demo.w_a] *)
Lemma gen_a_ok :
  generate_token Demo.admin_info Demo.w_a
  = (Ok Demo.tok_a, snd (generate_token Demo.admin_info Demo.w_a)).
Proof. vm_compute; reflexivity. Qed.

Lemma gen_b_ok :
  generate_token Demo.admin_info Demo.w_b
  = (Ok Demo.tok_b, snd (generate_token Demo.admin_info Demo.w_b)).
Proof. vm_compute; reflexivity. Qed.

Lemma token_times_witness :
  generate_token Demo.admin_info Demo.w_a
    = (Ok Demo.tok_a, snd (generate_token Demo.admin_info Demo.w_a)) /\
  exists kvs nbf iat exp,
    decoded_payload Demo.tok_a = Some kvs /\
    get_key "nbf" kvs = Some (JInt nbf) /\
    get_key "iat" kvs = Some (JInt iat) /\
    get_key "exp" kvs = Some (JInt exp) /\
    nbf = iat /\ iat = Py.timegm (now_at Demo.w_a (ticks Demo.w_a)) /\
    (nbf <= iat <= exp)%Z /\ (exp - iat = 86400)%Z /\
    ticks (snd (generate_token Demo.admin_info Demo.w_a)) = S (ticks Demo.w_a).
Proof. split; [exact gen_a_ok | exact (token_times _ _ _ _ gen_a_ok)]. Defined.

Lemma role_tokens_witness :
  In ("admin", Demo.admin_info) users /\ clock_ok Demo.w_a /\ draw_ok Demo.w_a /\
  exists tok w',
    generate_token Demo.admin_info Demo.w_a = (Ok tok, w') /\
    (exists h m s, Py.split_dot tok = [h; m; s] /\
       s = B64.base64url_encode
             (Sha256.hmac (list_byte_of_string JWT_SECRET) (list_byte_of_string (h ++ "." ++ m)))) /\
    exists kvs,
      decoded_payload tok = Some kvs /\
      get_key "sub" kvs = Py.dict_get "id" Demo.admin_info /\
      get_key "role" kvs = Py.dict_get "role" Demo.admin_info /\
      get_key "aud" kvs = Some (JArr [JStr "ga-ticketing-client"]) /\
      get_key "iss" kvs = Some (JStr "ga-ticketing-system") /\
      ("admin" = "admin" ->
       get_key "sub" kvs = Some (JStr "adm-001") /\ get_key "role" kvs = Some (JStr "admin")).
Proof.
  assert (Hin : In ("admin", Demo.admin_info) users) by (right; right; left; reflexivity).
  assert (Hc : clock_ok Demo.w_a) by (split; vm_compute; congruence).
  assert (Hd : draw_ok Demo.w_a) by reflexivity.
  split; [exact Hin |]; split; [exact Hc |]; split; [exact Hd |].
  exact (role_tokens "admin" Demo.admin_info Demo.w_a Hin Hc Hd).
Defined.


(** the admin profile on a process with other files, output, and reading
    counters, but the same clock reading and random draw as [Demo.w_a] *)
Lemma generate_token_effects_witness :
  now_at Demo.w_a (ticks Demo.w_a)
    = now_at (mk_world (fun _ => Demo.demo_time) 5 (fun _ => Demo.bytes_a) 2
                [("notes.txt", "x")] ["hello"] [])
             (ticks (mk_world (fun _ => Demo.demo_time) 5 (fun _ => Demo.bytes_a) 2
                [("notes.txt", "x")] ["hello"] [])) /\
  fst (generate_token Demo.admin_info Demo.w_a)
    = fst (generate_token Demo.admin_info
             (mk_world (fun _ => Demo.demo_time) 5 (fun _ => Demo.bytes_a) 2
                [("notes.txt", "x")] ["hello"] [])) /\
  Py.uuid_of_bytes (urandom_at Demo.w_a (draws Demo.w_a))
    <> Py.uuid_of_bytes (urandom_at Demo.w_b (draws Demo.w_b)) /\
  Demo.tok_a <> Demo.tok_b.
Proof.
  assert (Hne : Py.uuid_of_bytes (urandom_at Demo.w_a (draws Demo.w_a))
                <> Py.uuid_of_bytes (urandom_at Demo.w_b (draws Demo.w_b)))
    by (vm_compute; congruence).
  split; [reflexivity |]; split.
  - exact (proj1 (proj2 (proj2 generate_token_effects)) Demo.admin_info Demo.w_a _
             eq_refl eq_refl).
  - split; [exact Hne |].
    exact (proj2 (proj2 (proj2 (proj2 generate_token_effects)))
             _ _ _ _ _ _ _ _ gen_a_ok gen_b_ok Hne).
Defined.

Lemma jti_unique_witness :
  Py.uuid_of_bytes (urandom_at Demo.w_a (draws Demo.w_a))
    <> Py.uuid_of_bytes (urandom_at Demo.w_b (draws Demo.w_b)) /\
  exists kvs1 kvs2 j1 j2,
    decoded_payload Demo.tok_a = Some kvs1 /\ decoded_payload Demo.tok_b = Some kvs2 /\
    get_key "jti" kvs1 = Some (JStr j1) /\ get_key "jti" kvs2 = Some (JStr j2) /\
    j1 <> j2.
Proof.
  assert (Hne : Py.uuid_of_bytes (urandom_at Demo.w_a (draws Demo.w_a))
                <> Py.uuid_of_bytes (urandom_at Demo.w_b (draws Demo.w_b)))
    by (vm_compute; congruence).
  split; [exact Hne |].
  exact (jti_unique _ _ _ _ _ _ _ _ gen_a_ok gen_b_ok Hne).
Defined.

End TokenClaims.

(* ------------------------------------------------------------------ *)
(** ** Running the script without PyJWT *)

Module ExitClaims.
Import Script.
Local Open Scope string_scope.

(** C4: without PyJWT, the top-level [import jwt] of line 7 raises before
    the guarded import of the __main__ block is reached: the process exits
    with status 1 and a ModuleNotFoundError traceback on stderr, prints
    nothing on stdout (no install hint) and writes no file. *)
Theorem missing_pyjwt_exit w :
  fst (run false w) = 1%Z /\
  stdout (snd (run false w)) = stdout w /\
  files (snd (run false w)) = files w /\
  stderr (snd (run false w)) =
    (stderr w ++ ["Traceback (most recent call last):";
                  "ModuleNotFoundError: No module named 'jwt'"])%list.
Proof. repeat split. Qed.

End ExitClaims.

(* ================================================================== *)
(** * Further properties of the script and of the library code it calls *)

(* ------------------------------------------------------------------ *)
(** ** The exceptions of [generate_token] *)

Module GenErr.
Import Json Jwt Script Gen GenSpec Shape.
Local Open Scope string_scope.

Lemma dt_add_out a b :
  (a + b < Py.datetime_min \/ Py.datetime_max < a + b)%Z ->
  Py.dt_add a b = Err (OverflowError "date value out of range").
Proof.
  intro H; unfold Py.dt_add.
  replace ((a + b <? Py.datetime_min) || (Py.datetime_max <? a + b))%Z with true;
    [reflexivity |].
  symmetry; apply orb_true_iff; destruct H; [left | right]; apply Z.ltb_lt; lia.
Qed.

Lemma dt_add_err a b e : Py.dt_add a b = Err e -> e = OverflowError "date value out of range".
Proof.
  unfold Py.dt_add; destruct (_ || _)%Z; intro H; inversion H; reflexivity.
Qed.

(** the expiry time is computed before any field is read *)
Lemma gen_overflow info w :
  (now_at w (ticks w) + Py.timedelta_hours 24 < Py.datetime_min \/
   Py.datetime_max < now_at w (ticks w) + Py.timedelta_hours 24)%Z ->
  generate_token info w =
    (Err (OverflowError "date value out of range"), set_ticks w (S (ticks w))).
Proof.
  intro H; unfold generate_token.
  cbv [bind utcnow lift getitem ret raise uuid4 set_ticks set_draws].
  cbn [now_at ticks urandom_at draws files stdout stderr].
  rewrite dt_add_out by exact H; reflexivity.
Qed.

Lemma has_fields_get info k :
  has_fields info = true -> In k profile_fields -> exists v, Py.dict_get k info = Some v.
Proof.
  unfold has_fields; intros H Hk.
  rewrite forallb_forall in H; specialize (H k Hk).
  destruct (Py.dict_get k info) as [v |]; [exists v; reflexivity | discriminate].
Qed.

Ltac get_field info k :=
  let v := fresh "v" in let E := fresh "E" in
  destruct (Py.dict_get k info) as [v |] eqn:E;
  [| match goal with Hf : has_fields info = true |- _ =>
       destruct (has_fields_get info k Hf ltac:(simpl; tauto)) as [? ?]; congruence end].

(** on a profile with every field and a 16-byte draw, the only exception
    is the overflow of the expiry time *)
Lemma gen_err info w e w' :
  has_fields info = true -> draw_ok w ->
  generate_token info w = (Err e, w') -> e = OverflowError "date value out of range".
Proof.
  intros Hf Hd H; unfold generate_token in H.
  cbv [bind utcnow lift getitem ret raise uuid4 set_ticks set_draws] in H.
  cbn [now_at ticks urandom_at draws files stdout stderr] in H.
  destruct (Py.dt_add _ _) as [x | e0] eqn:E0;
    [| injection H as <- _; exact (dt_add_err _ _ _ E0)].
  get_field info "id". get_field info "employee_id". get_field info "name".
  get_field info "email". get_field info "role". get_field info "department".
  cbn [now_at ticks urandom_at draws files stdout stderr] in H.
  destruct (uuid_of_bytes_16 _ Hd) as [u Hu]; rewrite Hu in H.
  match type of H with
  | context [Jwt.encode ?p ?k ALGORITHM] =>
      destruct (encode_hs256_ok p k _ eq_refl) as [t Ht];
      change ALGORITHM with "HS256" in H; rewrite Ht in H; discriminate H
  end.
Qed.

End GenErr.

(* ------------------------------------------------------------------ *)
(** ** The loop of [main], step by step *)

Module LoopFacts.
Import Json Jwt Script Gen GenSpec Shape GenErr Loop Run.
Local Open Scope string_scope.

Lemma getitem_field info k w :
  has_fields info = true -> In k profile_fields ->
  exists v, Py.dict_get k info = Some v /\ getitem info k w = (Ok v, w).
Proof.
  intros Hf Hk; destruct (has_fields_get info k Hf Hk) as [v Hv].
  exists v; split; [exact Hv |]; unfold getitem; rewrite Hv; reflexivity.
Qed.

Lemma loop_err todo tokens w e w' :
  forallb (fun p => has_fields (snd p)) todo = true ->
  (forall n, List.length (urandom_at w n) = 16%nat) ->
  token_loop todo tokens w = (Err e, w') -> e = OverflowError "date value out of range".
Proof.
  revert tokens w; induction todo as [| [role info] rest IH]; intros tokens w Hf Hd H;
    simpl in H; [discriminate |].
  cbn [forallb snd] in Hf; apply andb_prop in Hf as [Hi Hr].
  unfold bind at 1 in H.
  destruct (generate_token info w) as [[tok | e1] w1] eqn:Eg.
  - destruct (generate_token_ok _ _ _ _ Eg)
      as (? & ? & ? & ? & ? & ? & ? & ? & ? & ? & ? & ? & ? & ? & ? & ? & ? & Hw).
    unfold bind, print in H.
    match type of H with context [getitem info "name" ?w2] =>
      destruct (getitem_field info "name" w2 Hi ltac:(simpl; tauto)) as [nm [_ En]];
      rewrite En in H end.
    match type of H with context [getitem info "email" ?w2] =>
      destruct (getitem_field info "email" w2 Hi ltac:(simpl; tauto)) as [em [_ Ee]];
      rewrite Ee in H end.
    match type of H with context [getitem info "role" ?w2] =>
      destruct (getitem_field info "role" w2 Hi ltac:(simpl; tauto)) as [rl [_ Er]];
      rewrite Er in H end.
    refine (IH _ _ Hr _ H).
    intro n; subst w1; exact (Hd n).
  - injection H as <- _. exact (gen_err _ _ _ _ Hi (Hd (draws w)) Eg).
Qed.

Lemma users_have_fields : forallb (fun p => has_fields (snd p)) users = true.
Proof. vm_compute; reflexivity. Qed.

(** each step of a finished loop is one successful [generate_token] call *)
Lemma token_loop_steps todo tokens w toks w' :
  token_loop todo tokens w = (Ok toks, w') ->
  exists ts,
    List.length ts = List.length todo /\
    toks = fold_left (fun acc '(r, t) => Py.dict_set r t acc)
                     (combine (map fst todo) ts) tokens /\
    Forall2 (fun p t => exists w1 w2, generate_token (snd p) w1 = (Ok t, w2)) todo ts /\
    ticks w' = (ticks w + List.length todo)%nat /\
    draws w' = (draws w + List.length todo)%nat.
Proof.
  revert tokens w.
  induction todo as [| [role info] rest IH]; intros tokens w H; simpl in H.
  - inversion H; subst. exists []; simpl; repeat split; first [reflexivity | constructor | lia].
  - unfold bind at 1 in H.
    destruct (generate_token info w) as [[tok | e] w1] eqn:Eg; [| discriminate].
    destruct (generate_token_ok _ _ _ _ Eg)
      as (? & ? & ? & ? & ? & ? & ? & ? & ? & ? & ? & ? & ? & ? & ? & ? & ? & Hw).
    unfold bind, print in H; simpl in H.
    destruct (getitem info "name" _) as [[nm | e] w2] eqn:En; [| discriminate].
    apply getitem_ok in En as [En ->].
    destruct (getitem info "email" _) as [[em | e] w3] eqn:Ee; [| discriminate].
    apply getitem_ok in Ee as [Ee ->].
    destruct (getitem info "role" _) as [[rl | e] w4] eqn:Er; [| discriminate].
    apply getitem_ok in Er as [Er ->].
    apply IH in H as (ts & Hlen & Htoks & Hgen & Ht & Hdr).
    exists (tok :: ts); simpl; repeat split.
    + now rewrite Hlen.
    + exact Htoks.
    + constructor; [exists w, w1; exact Eg | exact Hgen].
    + rewrite Ht; subst w1; simpl; lia.
    + rewrite Hdr; subst w1; simpl; lia.
Qed.

(** the statements after the loop neither read the clock nor draw *)
Lemma main_ok_loop w :
  fst (main w) = Ok tt ->
  exists toks w1,
    token_loop users [] (set_stdout w (stdout w ++ header_lines)%list) = (Ok toks, w1) /\
    ticks (snd (main w)) = ticks w1 /\ draws (snd (main w)) = draws w1.
Proof.
  unfold main; cbv [bind print write_file getitem ret raise].
  repeat match goal with
  | |- context [set_stdout (set_stdout ?w0 ?a) ?b] =>
      change (set_stdout (set_stdout w0 a) b) with (set_stdout w0 b)
  end.
  cbn [stdout set_stdout].
  rewrite <- !List.app_assoc.
  change ([_] ++ [_] ++ [_])%list with header_lines.
  destruct (token_loop users [] _) as [[toks | e] w1] eqn:E; [| discriminate].
  intro Hok; exists toks, w1; split; [reflexivity |].
  repeat match goal with
  | H : context [Py.dict_get ?k toks] |- _ =>
      destruct (Py.dict_get k toks); [| discriminate H]
  end.
  split; reflexivity.
Qed.

(** a token carries the profile's id as its first claim *)
Lemma token_user_id info w t w' uid :
  generate_token info w = (Ok t, w') -> Py.dict_get "id" info = Some uid ->
  exists rest, decoded_payload t = Some (("user_id", uid) :: rest).
Proof.
  intros H Hid.
  destruct (generate_token_claims _ _ _ _ H)
    as (uid' & ? & ? & ? & ? & ? & ? & ? & E1 & _ & _ & _ & _ & _ & _ & _ & Hd & _).
  rewrite Hid in E1; injection E1 as <-.
  eexists; rewrite Hd; reflexivity.
Qed.

Lemma dict_get_set_other {A} k k' (x : A) d :
  k' <> k -> Py.dict_get k' (Py.dict_set k x d) = Py.dict_get k' d.
Proof.
  intro Hne; induction d as [| [k0 y] t IH]; simpl.
  - apply String.eqb_neq in Hne; rewrite Hne; reflexivity.
  - destruct (String.eqb k k0) eqn:E; simpl.
    + apply String.eqb_eq in E; subst k0.
      apply String.eqb_neq in Hne; rewrite Hne; reflexivity.
    + rewrite IH; reflexivity.
Qed.

End LoopFacts.

(* ------------------------------------------------------------------ *)
(** ** The digits of [str(uuid4())] *)

Module UuidFormat.
Import Shape.
Local Open Scope string_scope.

Lemma get_app_lt (a b : string) n :
  (n < String.length a)%nat -> get n (a ++ b) = get n a.
Proof.
  revert n; induction a as [| c a IH]; intros n H; simpl in H; [lia |].
  destruct n; [reflexivity | simpl; apply IH; lia].
Qed.

Lemma get_app_ge (a b : string) n :
  (String.length a <= n)%nat -> get n (a ++ b) = get (n - String.length a) b.
Proof.
  revert n; induction a as [| c a IH]; intros n H; simpl in H.
  - simpl; rewrite Nat.sub_0_r; reflexivity.
  - destruct n; [lia | simpl; apply IH; lia].
Qed.

Lemma get_none (s : string) n : (String.length s <= n)%nat -> get n s = None.
Proof.
  revert n; induction s as [| c s IH]; intros n H; [reflexivity |].
  destruct n; simpl in H; [lia | simpl; apply IH; lia].
Qed.

(** digit [i] of ['%0kx' % n], most significant first *)
Lemma hex_digits_get k n i :
  (i < k)%nat ->
  get i (Py.hex_digits k n) =
  Some (Json.hex_digit (Z.to_nat ((n / 16 ^ Z.of_nat (k - 1 - i)) mod 16))).
Proof.
  revert n i; induction k as [| k IH]; intros n i Hi; [lia |].
  cbn [Py.hex_digits].
  destruct (Nat.lt_ge_cases i k) as [Hlt | Hge].
  - rewrite get_app_lt by (rewrite UuidFacts.hex_digits_length; exact Hlt).
    rewrite IH by exact Hlt.
    replace (S k - 1 - i)%nat with (S (k - 1 - i)) by lia.
    rewrite Nat2Z.inj_succ, Z.pow_succ_r, Z.div_div by lia.
    rewrite (Z.mul_comm 16); reflexivity.
  - assert (i = k) by lia; subst i.
    rewrite get_app_ge by (rewrite UuidFacts.hex_digits_length; lia).
    rewrite UuidFacts.hex_digits_length, Nat.sub_diag.
    replace (S k - 1 - k)%nat with O by lia.
    rewrite Z.pow_0_r, Z.div_1_r; reflexivity.
Qed.

Lemma hex_digit_is_hex n : is_hex_char (Json.hex_digit n) = true.
Proof. do 16 (destruct n as [| n]; [reflexivity |]). reflexivity. Qed.

(** the layout of [str(UUID)] over any 32 hex digits *)
Lemma uuid_layout h :
  String.length h = 32%nat ->
  let s := substring 0 8 h ++ "-" ++ substring 8 4 h ++ "-" ++ substring 12 4 h
           ++ "-" ++ substring 16 4 h ++ "-" ++ substring 20 12 h in
  String.length s = 36%nat /\
  get 8 s = Some "-"%char /\ get 13 s = Some "-"%char /\
  get 18 s = Some "-"%char /\ get 23 s = Some "-"%char /\
  (forall i, i <> 8%nat -> i <> 13%nat -> i <> 18%nat -> i <> 23%nat ->
     get i s = get (uuid_src i) h).
Proof.
  intro Hl; cbv zeta.
  do 32 (destruct h as [| ? h]; [discriminate Hl |]).
  destruct h; [| discriminate Hl].
  cbv [substring String.append].
  split; [reflexivity |]. do 4 (split; [reflexivity |]).
  intros i H8 H13 H18 H23.
  destruct (Nat.lt_ge_cases i 36) as [Hi | Hi].
  - do 36 (destruct i as [| i]; [first [reflexivity | congruence] |]). lia.
  - replace (uuid_src i) with (i - 4)%nat
      by (unfold uuid_src; destruct (Nat.ltb_spec i 8); [lia |];
          destruct (Nat.ltb_spec i 13); [lia |]; destruct (Nat.ltb_spec i 18); [lia |];
          destruct (Nat.ltb_spec i 23); [lia | reflexivity]).
    rewrite !get_none by (simpl; lia). reflexivity.
Qed.


Lemma nibble_bit x s m :
  (0 <= s)%Z -> (0 <= m < 4)%Z -> Z.testbit ((x / 2 ^ s) mod 16) m = Z.testbit x (s + m).
Proof.
  intros Hs Hm.
  rewrite <- Z.shiftr_div_pow2 by lia.
  change 16%Z with (2 ^ 4)%Z; rewrite Z.mod_pow2_bits_low by lia.
  rewrite Z.shiftr_spec by lia; f_equal; lia.
Qed.

Lemma nibble_cases v :
  (0 <= v < 16)%Z ->
  v = ((if Z.testbit v 3 then 8 else 0) + (if Z.testbit v 2 then 4 else 0)
       + (if Z.testbit v 1 then 2 else 0) + (if Z.testbit v 0 then 1 else 0))%Z.
Proof.
  intro H.
  assert (v = 0 \/ v = 1 \/ v = 2 \/ v = 3 \/ v = 4 \/ v = 5 \/ v = 6 \/ v = 7 \/
          v = 8 \/ v = 9 \/ v = 10 \/ v = 11 \/ v = 12 \/ v = 13 \/ v = 14 \/ v = 15)%Z
    as Hv by lia.
  repeat (destruct Hv as [-> | Hv]; [reflexivity |]). subst v; reflexivity.
Qed.

(** the version digit of a uuid4 is 4 and its variant digit is 8, 9, a or b *)
Lemma uuid_nibbles bs u :
  Py.uuid_of_bytes bs = Ok u ->
  ((u / 16 ^ 19) mod 16 = 4 /\ 8 <= (u / 16 ^ 15) mod 16 <= 11)%Z.
Proof.
  unfold Py.uuid_of_bytes; intro H.
  destruct (negb (Nat.eqb (List.length bs) 16)); [discriminate |].
  injection H as <-.
  set (n := Py.from_bytes_be bs).
  change (16 ^ 19)%Z with (2 ^ 76)%Z; change (16 ^ 15)%Z with (2 ^ 60)%Z.
  split.
  - match goal with |- ?v = _ =>
      rewrite (nibble_cases v) by (apply Z.mod_pos_bound; lia) end.
    rewrite !nibble_bit by lia.
    rewrite !Z.lor_spec, !Z.land_spec, !Z.lor_spec, !Z.land_spec.
    rewrite !Z.lnot_spec by lia.
    repeat match goal with |- context [Z.testbit n ?i] =>
      let b := fresh "b" in generalize (Z.testbit n i); intro b; destruct b end;
    vm_compute; first [reflexivity | lia | intuition discriminate].
  - match goal with |- (_ <= ?v <= _)%Z =>
      rewrite (nibble_cases v) by (apply Z.mod_pos_bound; lia) end.
    rewrite !nibble_bit by lia.
    rewrite !Z.lor_spec, !Z.land_spec, !Z.lor_spec, !Z.land_spec.
    rewrite !Z.lnot_spec by lia.
    repeat match goal with |- context [Z.testbit n ?i] =>
      let b := fresh "b" in generalize (Z.testbit n i); intro b; destruct b end;
    vm_compute; first [reflexivity | lia | intuition discriminate].
Qed.



End UuidFormat.

(* ------------------------------------------------------------------ *)
(** ** The characters and segments of a token *)

Module TokenShape.
Import Json Jwt Script Gen Shape.
Local Open Scope string_scope.

Lemma all_chars_app p a b : all_chars p (a ++ b) = all_chars p a && all_chars p b.
Proof. induction a as [| c a IH]; simpl; [reflexivity | rewrite IH, andb_assoc; reflexivity]. Qed.

Lemma char6_url_safe a b c d e f : url_safe_char (B64.char6 a b c d e f) = true.
Proof. destruct a, b, c, d, e, f; reflexivity. Qed.

Lemma enc_bits_url_safe bits : all_chars url_safe_char (B64.enc_bits bits) = true.
Proof.
  induction bits as [bits IH] using (induction_ltof1 _ (@List.length bool)).
  unfold ltof in IH.
  destruct bits as [| a [| b [| c [| d [| e [| f rest]]]]]]; cbn [B64.enc_bits all_chars];
    rewrite ?char6_url_safe; try reflexivity.
  apply IH; simpl; lia.
Qed.

Lemma round_length st kw : List.length (Sha256.round st kw) = List.length st.
Proof.
  unfold Sha256.round.
  destruct st as [| a [| b [| c [| d [| e [| f [| g [| h [| ? ?]]]]]]]]];
    cbn beta iota zeta delta [List.length]; reflexivity.
Qed.

Lemma rounds_length l st : List.length (fold_left Sha256.round l st) = List.length st.
Proof.
  revert st; induction l as [| kw l IH]; intro st; simpl; [reflexivity |].
  rewrite IH, round_length; reflexivity.
Qed.

Lemma compress_length hs block : List.length (Sha256.compress hs block) = List.length hs.
Proof.
  unfold Sha256.compress; rewrite length_map, length_combine, rounds_length.
  apply Nat.min_id.
Qed.

Lemma compresses_length bl hs : List.length (fold_left Sha256.compress bl hs) = List.length hs.
Proof.
  revert hs; induction bl as [| b bl IH]; intro hs; simpl; [reflexivity |].
  rewrite IH, compress_length; reflexivity.
Qed.

Lemma be_bytes_length n x : List.length (Sha256.be_bytes n x) = n.
Proof.
  revert x; induction n as [| n IH]; intro x; simpl; [reflexivity |].
  rewrite List.length_app, IH; simpl; lia.
Qed.

Lemma flat_map_be_length hs : List.length (flat_map (Sha256.be_bytes 4) hs) = (4 * List.length hs)%nat.
Proof.
  induction hs as [| h hs IH]; cbn [flat_map]; [reflexivity |].
  rewrite List.length_app, be_bytes_length, IH; cbn [List.length]; lia.
Qed.

Lemma digest_length msg : List.length (Sha256.digest msg) = 32%nat.
Proof.
  unfold Sha256.digest, Sha256.digest_Z; rewrite length_map, flat_map_be_length.
  rewrite compresses_length; reflexivity.
Qed.

Lemma hmac_length key msg : List.length (Sha256.hmac key msg) = 32%nat.
Proof. unfold Sha256.hmac; apply digest_length. Qed.

Lemma header_segment :
  B64.base64url_encode (list_byte_of_string (dumps (header "HS256")))
  = "eyJhbGciOiJIUzI1NiIsInR5cCI6IkpXVCJ9".
Proof. vm_compute; reflexivity. Qed.

(** what [jwt.encode] returns in [generate_token] *)
Lemma gen_encoded info w tok w' :
  generate_token info w = (Ok tok, w') ->
  exists claims,
    tok = B64.base64url_encode (list_byte_of_string (dumps (header "HS256"))) ++ "."
          ++ B64.base64url_encode (list_byte_of_string (dumps (JObj claims))) ++ "."
          ++ B64.base64url_encode
               (Sha256.hmac (list_byte_of_string JWT_SECRET)
                  (list_byte_of_string
                     (B64.base64url_encode (list_byte_of_string (dumps (header "HS256"))) ++ "."
                      ++ B64.base64url_encode (list_byte_of_string (dumps (JObj claims)))))).
Proof.
  intro H.
  destruct (generate_token_ok _ _ _ _ H)
    as (? & ? & ? & ? & ? & ? & ? & ? & _ & _ & _ & _ & _ & _ & _ & _ & Henc & _).
  eexists; refine (JwtFacts.encode_shape _ _ _ _ _ Henc); reflexivity.
Qed.



End TokenShape.

(* ------------------------------------------------------------------ *)
(** ** Concrete runs used below *)

Module ExtraRuns.
Import Json Jwt Script.
Local Open Scope string_scope.

Lemma gen_admin_run :
  generate_token Demo.admin_info Demo.w_a
  = (Ok Demo.tok_a, snd (generate_token Demo.admin_info Demo.w_a)).
Proof. vm_compute; reflexivity. Qed.

Lemma main_a_done : fst (main Demo.w_a) = Ok tt.
Proof. vm_compute; reflexivity. Qed.


Lemma loop_late_run :
  token_loop users [] Demo.w_late
  = (Err (OverflowError "date value out of range"), snd (token_loop users [] Demo.w_late)).
Proof. vm_compute; reflexivity. Qed.

End ExtraRuns.

(* ------------------------------------------------------------------ *)
(** ** Properties of [generate_token], [main] and the script run *)

Module Extra.
Import Json Jwt Script Gen GenSpec Shape GenErr Loop Run LoopFacts UuidFormat TokenShape ExtraRuns.
Local Open Scope string_scope.

(** X1: when now + timedelta(hours=24) leaves the datetime range,
    [generate_token] raises OverflowError before it reads any field of the
    profile and before it draws a uuid: only the clock was read. *)
Theorem expiry_overflow_first info w :
  (now_at w (ticks w) + Py.timedelta_hours 24 < Py.datetime_min \/
   Py.datetime_max < now_at w (ticks w) + Py.timedelta_hours 24)%Z ->
  generate_token info w =
    (Err (OverflowError "date value out of range"), set_ticks w (S (ticks w))).
Proof. intro H; exact (gen_overflow info w H). Qed.

Lemma expiry_overflow_first_witness :
  (Py.datetime_max < now_at Demo.w_late (ticks Demo.w_late) + Py.timedelta_hours 24)%Z /\
  generate_token Demo.profile_no_email Demo.w_late =
    (Err (OverflowError "date value out of range"),
     set_ticks Demo.w_late (S (ticks Demo.w_late))).
Proof.
  split; [vm_compute; reflexivity |].
  apply (expiry_overflow_first Demo.profile_no_email Demo.w_late).
  right; vm_compute; reflexivity.
Defined.

(** X2: with the clock in range, [generate_token] raises KeyError for the
    first of id, employee_id, name, email, role, department (in this
    order) that the profile lacks; it has then read the clock once and
    drawn no uuid. *)
Theorem first_missing_field info w pre k post :
  profile_fields = (pre ++ k :: post)%list ->
  Forall (fun k' => Py.dict_get k' info <> None) pre ->
  Py.dict_get k info = None ->
  (Py.datetime_min <= now_at w (ticks w) + Py.timedelta_hours 24 <= Py.datetime_max)%Z ->
  generate_token info w = (Err (KeyError k), set_ticks w (S (ticks w))).
Proof.
  intros Hpk Hpre Hk Hc; unfold generate_token.
  cbv [bind utcnow lift getitem ret raise uuid4 set_ticks set_draws].
  cbn [now_at ticks urandom_at draws files stdout stderr].
  rewrite dt_add_in_range by exact Hc.
  destruct pre as [| k1 [| k2 [| k3 [| k4 [| k5 [| k6 pre]]]]]];
    cbn in Hpk; injection Hpk; intros; subst;
    repeat match goal with
    | H : Forall _ (_ :: _) |- _ => inversion H; subst; clear H
    end;
    repeat match goal with
    | H : Py.dict_get ?k' info <> None |- _ =>
        destruct (Py.dict_get k' info); [clear H | congruence]
    end;
    try (rewrite Hk; reflexivity).
  match goal with H : [] = _ |- _ => destruct pre; discriminate H | H : _ = [] |- _ => destruct pre; discriminate H end.
Qed.

Lemma first_missing_field_witness :
  generate_token Demo.profile_no_email Demo.w_a
  = (Err (KeyError "email"), set_ticks Demo.w_a (S (ticks Demo.w_a))).
Proof.
  apply (first_missing_field Demo.profile_no_email Demo.w_a
           ["id"; "employee_id"; "name"] "email" ["role"; "department"]).
  - reflexivity.
  - repeat constructor; vm_compute; discriminate.
  - reflexivity.
  - split; vm_compute; discriminate.
Defined.

(** X3: with 16-byte draws, the loop of [main] over the three users can
    fail only with OverflowError: each of the three profiles has the six
    keys [generate_token] reads and the name, email and role the loop
    prints, so no KeyError can come out of it, whatever the accumulated
    tokens dict holds. *)
Theorem user_loop_overflow_only tokens w e w' :
  (forall n, List.length (urandom_at w n) = 16%nat) ->
  token_loop users tokens w = (Err e, w') ->
  e = OverflowError "date value out of range".
Proof. intros Hd H; exact (loop_err users tokens w e w' users_have_fields Hd H). Qed.

Lemma user_loop_overflow_only_witness :
  (forall n, List.length (urandom_at Demo.w_late n) = 16%nat) /\
  OverflowError "date value out of range" = OverflowError "date value out of range".
Proof.
  split; [intro n; reflexivity |].
  exact (user_loop_overflow_only [] Demo.w_late _ _ (fun n => eq_refl) loop_late_run).
Defined.



(** X5: [main] writes no file other than test_tokens.json: every other
    path keeps its contents, whether [main] finishes or raises. *)
Theorem main_keeps_other_files w f :
  f <> "test_tokens.json" ->
  Py.dict_get f (files (snd (main w))) = Py.dict_get f (files w).
Proof.
  intro Hf.
  destruct (main_cases w) as [(e & w1 & Hm & Hfiles & _) | (? & ? & ? & ? & _ & Hfiles & _)].
  - rewrite Hm; simpl; rewrite Hfiles; reflexivity.
  - rewrite Hfiles; apply dict_get_set_other; exact Hf.
Qed.

Lemma main_keeps_other_files_witness :
  "notes.txt" <> "test_tokens.json" /\
  Py.dict_get "notes.txt"
    (files (snd (main (Demo.demo_world Demo.demo_time Demo.bytes_a [("notes.txt", "keep")]))))
  = Some "keep".
Proof.
  split; [discriminate |].
  exact (main_keeps_other_files
           (Demo.demo_world Demo.demo_time Demo.bytes_a [("notes.txt", "keep")])
           "notes.txt" ltac:(discriminate)).
Defined.


(** X6: every character of a token [generate_token] returns is a
    base64url letter (A-Z, a-z, 0-9, - and _) or a dot, so it can be pasted
    between the double quotes of an export line as is. *)
Theorem token_url_safe info w tok w' :
  generate_token info w = (Ok tok, w') -> all_chars url_safe_char tok = true.
Proof.
  intro H; destruct (gen_encoded _ _ _ _ H) as [claims ->].
  unfold B64.base64url_encode; rewrite !all_chars_app, !enc_bits_url_safe; reflexivity.
Qed.
Lemma token_url_safe_witness :
  generate_token Demo.admin_info Demo.w_a
  = (Ok Demo.tok_a, snd (generate_token Demo.admin_info Demo.w_a)) /\
  all_chars url_safe_char Demo.tok_a = true.
Proof.
  split; [exact gen_admin_run |].
  exact (token_url_safe _ _ _ _ gen_admin_run).
Defined.

(** X7: a token has three dot-separated segments; the first is always
    the same string, the base64url form of the header
    {"alg":"HS256","typ":"JWT"}, and the last, the HMAC-SHA256 signature,
    has 43 characters. *)
Theorem token_segments info w tok w' :
  generate_token info w = (Ok tok, w') ->
  exists m s,
    Py.split_dot tok = ["eyJhbGciOiJIUzI1NiIsInR5cCI6IkpXVCJ9"; m; s] /\
    B64.base64url_decode "eyJhbGciOiJIUzI1NiIsInR5cCI6IkpXVCJ9"
      = Some (list_byte_of_string (dumps (JObj [("alg", JStr "HS256"); ("typ", JStr "JWT")]))) /\
    String.length s = 43%nat.
Proof.
  intro H; destruct (gen_encoded _ _ _ _ H) as [claims ->].
  rewrite header_segment.
  eexists _, _; split; [| split].
  - apply JwtFacts.split_three; apply B64Facts.encode_no_dot || (rewrite <- header_segment; apply B64Facts.encode_no_dot).
  - vm_compute; reflexivity.
  - unfold B64.base64url_encode.
    rewrite B64Facts.enc_bits_length, B64Facts.flat_map_bits_length, hmac_length; reflexivity.
Qed.
Lemma token_segments_witness :
  generate_token Demo.admin_info Demo.w_a
  = (Ok Demo.tok_a, snd (generate_token Demo.admin_info Demo.w_a)) /\
  exists m s,
    Py.split_dot Demo.tok_a = ["eyJhbGciOiJIUzI1NiIsInR5cCI6IkpXVCJ9"; m; s] /\
    B64.base64url_decode "eyJhbGciOiJIUzI1NiIsInR5cCI6IkpXVCJ9"
      = Some (list_byte_of_string (dumps (JObj [("alg", JStr "HS256"); ("typ", JStr "JWT")]))) /\
    String.length s = 43%nat.
Proof.
  split; [exact gen_admin_run |].
  exact (token_segments _ _ _ _ gen_admin_run).
Defined.

(** X8: when [main] finishes, the three tokens it saved are pairwise
    different: each one carries its own user's id as its user_id claim. *)
Theorem run_tokens_distinct w :
  fst (main w) = Ok tt ->
  exists t_req t_app t_adm,
    Py.dict_get "test_tokens.json" (files (snd (main w)))
      = Some (dumps_indent 0 (tokens_json (bundle t_req t_app t_adm))) /\
    t_req <> t_app /\ t_req <> t_adm /\ t_app <> t_adm.
Proof.
  intro Hok.
  destruct (main_cases w) as [(e & w1 & Hm & _ & _) | (t1 & t2 & t3 & w1 & _ & Hf & _ & Hl)].
  { rewrite Hm in Hok; discriminate Hok. }
  exists t1, t2, t3; split; [rewrite Hf; apply dict_get_set_same |].
  destruct (token_loop_steps _ _ _ _ _ Hl) as (ts & Hlen & Htoks & Hgen & _).
  destruct ts as [| a [| b [| c [| ? ?]]]]; try discriminate Hlen.
  cbn in Htoks; injection Htoks as -> -> ->.
  inversion Hgen as [| ? ? ? ? (wa & wa' & Ga) Hgen2]; subst.
  inversion Hgen2 as [| ? ? ? ? (wb & wb' & Gb) Hgen3]; subst.
  inversion Hgen3 as [| ? ? ? ? (wc & wc' & Gc) _]; subst.
  destruct (token_user_id _ _ _ _ (JStr "req-001") Ga eq_refl) as [ra Ha].
  destruct (token_user_id _ _ _ _ (JStr "app-001") Gb eq_refl) as [rb Hb].
  destruct (token_user_id _ _ _ _ (JStr "adm-001") Gc eq_refl) as [rc Hc].
  repeat split; intro E; subst; congruence.
Qed.

Lemma run_tokens_distinct_witness :
  fst (main Demo.w_a) = Ok tt /\
  exists t_req t_app t_adm,
    Py.dict_get "test_tokens.json" (files (snd (main Demo.w_a)))
      = Some (dumps_indent 0 (tokens_json (bundle t_req t_app t_adm))) /\
    t_req <> t_app /\ t_req <> t_adm /\ t_app <> t_adm.
Proof. split; [exact main_a_done | exact (run_tokens_distinct _ main_a_done)]. Defined.

(** X9: the jti claim of a token is the canonical text of a version-4
    uuid: 36 characters, dashes at positions 8, 13, 18 and 23, lowercase
    hex digits elsewhere, the version digit 4 at position 14 and a variant
    digit among 8, 9, a, b at position 19. *)
Theorem jti_uuid4_format info w tok w' :
  generate_token info w = (Ok tok, w') ->
  exists kvs j,
    decoded_payload tok = Some kvs /\ get_key "jti" kvs = Some (JStr j) /\
    String.length j = 36%nat /\
    get 8 j = Some "-"%char /\ get 13 j = Some "-"%char /\
    get 18 j = Some "-"%char /\ get 23 j = Some "-"%char /\
    get 14 j = Some "4"%char /\
    (get 19 j = Some "8"%char \/ get 19 j = Some "9"%char \/
     get 19 j = Some "a"%char \/ get 19 j = Some "b"%char) /\
    (forall i c, i <> 8%nat -> i <> 13%nat -> i <> 18%nat -> i <> 23%nat ->
       get i j = Some c -> is_hex_char c = true).
Proof.
  intro H.
  destruct (generate_token_claims _ _ _ _ H)
    as (uid & eid & nm & em & rl & dp & u & e & _ & _ & _ & _ & _ & _ & Hu & _ & Hd & _).
  destruct (uuid_nibbles _ _ Hu) as [Hver Hvar].
  eexists _, (Py.uuid_str u); split; [exact Hd |]; split; [reflexivity |].
  unfold Py.uuid_str; cbv zeta.
  destruct (uuid_layout (Py.hex_digits 32 u) (UuidFacts.hex_digits_length 32 u))
    as (Hl & D8 & D13 & D18 & D23 & Hsrc).
  split; [exact Hl |]. do 4 (split; [assumption |]).
  split; [| split].
  - rewrite Hsrc by discriminate. cbn [uuid_src Nat.ltb Nat.leb Nat.sub].
    rewrite hex_digits_get by lia. cbn [Nat.sub Z.of_nat Pos.of_succ_nat Pos.succ].
    rewrite Hver; reflexivity.
  - rewrite Hsrc by discriminate. cbn [uuid_src Nat.ltb Nat.leb Nat.sub].
    rewrite hex_digits_get by lia. cbn [Nat.sub Z.of_nat Pos.of_succ_nat Pos.succ].
    set (v := ((u / 16 ^ 15) mod 16)%Z) in *.
    assert (v = 8 \/ v = 9 \/ v = 10 \/ v = 11)%Z as [-> | [-> | [-> | ->]]] by lia;
      [left | right; left | right; right; left | right; right; right]; reflexivity.
  - intros i c H8 H13 H18 H23 Hc.
    rewrite Hsrc in Hc by assumption.
    destruct (Nat.lt_ge_cases (uuid_src i) 32) as [Hi | Hi].
    + rewrite hex_digits_get in Hc by exact Hi.
      injection Hc as <-; apply hex_digit_is_hex.
    + rewrite get_none in Hc by (rewrite UuidFacts.hex_digits_length; exact Hi).
      discriminate.
Qed.
Lemma jti_uuid4_format_witness :
  generate_token Demo.admin_info Demo.w_a
  = (Ok Demo.tok_a, snd (generate_token Demo.admin_info Demo.w_a)) /\
  exists kvs j,
    decoded_payload Demo.tok_a = Some kvs /\ get_key "jti" kvs = Some (JStr j) /\
    String.length j = 36%nat /\
    get 8 j = Some "-"%char /\ get 13 j = Some "-"%char /\
    get 18 j = Some "-"%char /\ get 23 j = Some "-"%char /\
    get 14 j = Some "4"%char /\
    (get 19 j = Some "8"%char \/ get 19 j = Some "9"%char \/
     get 19 j = Some "a"%char \/ get 19 j = Some "b"%char) /\
    (forall i c, i <> 8%nat -> i <> 13%nat -> i <> 18%nat -> i <> 23%nat ->
       get i j = Some c -> is_hex_char c = true).
Proof.
  split; [exact gen_admin_run |].
  exact (jti_uuid4_format _ _ _ _ gen_admin_run).
Defined.

(** X10: what [jwt.encode] produces with HS256 reads back: the middle
    segment of the token, base64url-decoded and parsed as JSON, is the
    payload with its datetimes turned into integer seconds. *)
Theorem jwt_encode_decode payload key claims tok :
  convert_times payload = Ok claims ->
  encode payload key "HS256" = Ok tok ->
  decoded_payload tok = Some claims.
Proof. exact (JwtFacts.decoded_encode payload key claims tok). Qed.

Lemma jwt_encode_decode_witness :
  convert_times [("sub", PyJ (JStr "x")); ("exp", PyDatetime Demo.demo_time)]
    = Ok [("sub", JStr "x"); ("exp", JInt 1700000000)] /\
  decoded_payload
    (match encode [("sub", PyJ (JStr "x")); ("exp", PyDatetime Demo.demo_time)] "k" "HS256"
     with Ok t => t | Err _ => EmptyString end)
    = Some [("sub", JStr "x"); ("exp", JInt 1700000000)].
Proof.
  split; [reflexivity |].
  apply (jwt_encode_decode [("sub", PyJ (JStr "x")); ("exp", PyDatetime Demo.demo_time)] "k").
  - reflexivity.
  - vm_compute; reflexivity.
Defined.

(** X11: a run of [main] that finishes has read the clock exactly three
    times and drawn exactly three uuids, one of each per user. *)
Theorem main_clock_draws w :
  fst (main w) = Ok tt ->
  ticks (snd (main w)) = (ticks w + 3)%nat /\ draws (snd (main w)) = (draws w + 3)%nat.
Proof.
  intro Hok; destruct (main_ok_loop w Hok) as (toks & w1 & Hl & Ht & Hd).
  destruct (token_loop_steps _ _ _ _ _ Hl) as (ts & _ & _ & _ & Ht1 & Hd1).
  rewrite Ht, Hd, Ht1, Hd1; split; reflexivity.
Qed.

Lemma main_clock_draws_witness :
  fst (main Demo.w_a) = Ok tt /\
  ticks (snd (main Demo.w_a)) = (ticks Demo.w_a + 3)%nat /\
  draws (snd (main Demo.w_a)) = (draws Demo.w_a + 3)%nat.
Proof. split; [exact main_a_done | exact (main_clock_draws _ main_a_done)]. Defined.

(** X12: when the first clock reading plus 24 hours leaves the datetime
    range, [main] raises OverflowError in the requester's
    [generate_token] call: only the three banner lines were printed, no
    uuid was drawn and no file was written. *)
Theorem main_first_overflow w :
  (now_at w (ticks w) + Py.timedelta_hours 24 < Py.datetime_min \/
   Py.datetime_max < now_at w (ticks w) + Py.timedelta_hours 24)%Z ->
  main w = (Err (OverflowError "date value out of range"),
            set_ticks (set_stdout w (stdout w ++ header_lines)%list) (S (ticks w))).
Proof.
  intro H.
  assert (E : token_loop users [] (set_stdout w (stdout w ++ header_lines)%list)
              = (Err (OverflowError "date value out of range"),
                 set_ticks (set_stdout w (stdout w ++ header_lines)%list) (S (ticks w)))).
  { cbn [token_loop users]; unfold bind at 1; rewrite gen_overflow by exact H; reflexivity. }
  destruct (main_cases w) as [(e & w1 & Hm & _ & Hl) | (? & ? & ? & ? & _ & _ & _ & Hl)];
    rewrite E in Hl; [injection Hl as <- <-; exact Hm | discriminate Hl].
Qed.

Lemma main_first_overflow_witness :
  (Py.datetime_max < now_at Demo.w_late (ticks Demo.w_late) + Py.timedelta_hours 24)%Z /\
  main Demo.w_late =
    (Err (OverflowError "date value out of range"),
     set_ticks (set_stdout Demo.w_late (stdout Demo.w_late ++ header_lines)%list)
               (S (ticks Demo.w_late))).
Proof.
  split; [vm_compute; reflexivity |].
  apply main_first_overflow; right; vm_compute; reflexivity.
Defined.

End Extra.
